(** * callisto-core, delivery models: report encryption and matching

    A shallow embedding of [callisto/delivery/models.py]: the module-level
    helpers [_encrypt_report], [_decrypt_report], [_pepper], [_unpepper]
    and the methods of the [Report] and [MatchReport] models that use
    them; then the identifiers of the sent reports, and from
    [callisto/delivery/wizard.py] the form list and [done] of
    [EncryptedFormBaseWizard].

    The Python code is glue around three external libraries: Django's
    [pbkdf2], PyNaCl's [SecretBox] (libsodium's [crypto_secretbox]) and the
    UTF-8 codec. They are kept abstract in the class [Platform]; what the
    proofs need from them is stated as named laws, each a documented
    contract of the library, and every law is shown to be satisfiable by
    the small reference platform of module [Ref]. *)

From Stdlib Require Import ZArith Strings.Byte Ascii String List Lia.
From Stdlib Require Import DecimalString DecimalN DecimalZ.
From stdpp Require Import base decidable option list gmap strings.

(** ** Python values *)

(** [bytes] objects. *)
Abbreviation bytes := (list byte).

#[global] Instance byte_eq_decision : EqDecision byte := Byte.byte_eq_dec.

(** The exception classes that can reach the code under study.
    [CryptoError] is what the cipher raises when it rejects a box.
    [NaclValueError] is [nacl.exceptions.ValueError], which PyNaCl raises
    on a nonce or key of the wrong length. The class hierarchy is that of
    PyNaCl from release 1.1.0 on, where every exception PyNaCl raises
    derives from [nacl.exceptions.CryptoError]; only the class of these
    length errors depends on the release. *)
Inductive exn : Type :=
  | CryptoError
  | NaclValueError
  | UnicodeDecodeError.

(** [isinstance(e, CryptoError)], the test behind [except CryptoError]. *)
Definition isinstance_CryptoError (e : exn) : bool :=
  match e with
  | CryptoError | NaclValueError => true
  | UnicodeDecodeError => false
  end.

(** The outcome of a Python call: a value or a raised exception. *)
Inductive result (A : Type) : Type :=
  | Return (a : A)
  | Raise (e : exn).
Arguments Return {A} a.
Arguments Raise {A} e.

#[global] Instance result_ret : MRet result := @Return.
#[global] Instance result_bind : MBind result := λ A B f r,
  match r with
  | Return a => f a
  | Raise e => Raise e
  end.

(** ** The platform: settings and external libraries *)

(** [django.conf.settings], the two entries the module reads. *)
Record Settings : Type := {
  KEY_ITERATIONS : N;
  PEPPER : bytes;
}.

Class Platform : Type := {
  settings : Settings;
  (** [django.utils.crypto.pbkdf2(password, salt, iterations,
      digest=hashlib.sha256)] *)
  pbkdf2 : string → string → N → bytes;
  (** [nacl.bindings.crypto_secretbox(message, nonce, key)] *)
  crypto_secretbox : bytes → bytes → bytes → bytes;
  (** [nacl.bindings.crypto_secretbox_open(ciphertext, nonce, key)];
      [None] when verification fails. *)
  crypto_secretbox_open : bytes → bytes → bytes → option bytes;
  (** [str.encode('utf-8')]; a [string] stands for a Python text value
      that can be encoded (no lone surrogates). *)
  utf8_encode : string → bytes;
  (** [bytes.decode('utf-8')]; [None] is [UnicodeDecodeError]. *)
  utf8_decode : bytes → option string;
  (** The state of the operating system's random source. *)
  Seed : Type;
  (** [os.urandom(size)] *)
  os_urandom : nat → Seed → bytes * Seed;
  (** [random.SystemRandom] as used by
      [django.utils.crypto.get_random_string()] *)
  system_random_string : Seed → string * Seed;
}.

(** What a call can read and change outside its arguments: the random
    source and the clock. *)
Record World `{Platform} : Type := {
  seed : Seed;
  clock : Z;
}.

(** Computations that may raise and that use the world. A method is given
    its object and returns the object as the call leaves it; when the call
    raises, only the exception and the world are kept. *)
Definition M `{Platform} (A : Type) : Type := World → result A * World.

#[global] Instance M_ret `{Platform} : MRet M := λ A a w, (Return a, w).
#[global] Instance M_bind `{Platform} : MBind M := λ A B f m w,
  match m w with
  | (Return a, w') => f a w'
  | (Raise e, w') => (Raise e, w')
  end.

Definition lift `{Platform} {A : Type} (r : result A) : M A := λ w, (r, w).

(** [nacl.utils.random(size)] *)
Definition nacl_utils_random `{Platform} (size : nat) : M bytes := λ w,
  let '(bs, s) := os_urandom size (seed w) in
  (Return bs, {| seed := s; clock := clock w |}).

(** [django.utils.crypto.get_random_string()] *)
Definition get_random_string `{Platform} : M string := λ w,
  let '(str, s) := system_random_string (seed w) in
  (Return str, {| seed := s; clock := clock w |}).

(** [django.utils.timezone.now()] *)
Definition timezone_now `{Platform} : M Z := λ w, (Return (clock w), w).

(** ** [nacl.secret.SecretBox] *)

Module SecretBox.
Definition KEY_SIZE : nat := 32.
Definition NONCE_SIZE : nat := 24.

Record t : Type := { _key : bytes }.

(** [SecretBox(key)] *)
Definition init (key : bytes) : result t :=
  if decide (length key = KEY_SIZE) then Return {| _key := key |}
  else Raise NaclValueError.

(** [box.encrypt(plaintext, nonce)]: the nonce followed by the
    authenticated ciphertext. *)
Definition encrypt `{Platform} (self : t) (plaintext nonce : bytes)
  : result bytes :=
  if decide (length nonce = NONCE_SIZE) then
    let ciphertext := crypto_secretbox plaintext nonce (_key self) in
    Return (nonce ++ ciphertext)
  else Raise NaclValueError.

(** [box.decrypt(ciphertext)]: the nonce is split off the front. *)
Definition decrypt `{Platform} (self : t) (ciphertext : bytes)
  : result bytes :=
  let nonce := take NONCE_SIZE ciphertext in
  let ciphertext := drop NONCE_SIZE ciphertext in
  if decide (length nonce = NONCE_SIZE) then
    match crypto_secretbox_open ciphertext nonce (_key self) with
    | Some plaintext => Return plaintext
    | None => Raise CryptoError
    end
  else Raise NaclValueError.
End SecretBox.

(** [decrypted.decode('utf-8')] *)
Definition decode_utf8 `{Platform} (b : bytes) : result string :=
  match utf8_decode b with
  | Some s => Return s
  | None => Raise UnicodeDecodeError
  end.

(** ** Module-level functions of [models.py] *)

Definition _encrypt_report `{Platform} (salt key report_text : string)
  : M bytes :=
  let stretched_key := pbkdf2 key salt (KEY_ITERATIONS settings) in
  box ← lift (SecretBox.init stretched_key);
  let message := utf8_encode report_text in
  nonce ← nacl_utils_random SecretBox.NONCE_SIZE;
  lift (SecretBox.encrypt box message nonce).

Definition _decrypt_report `{Platform} (salt key : string) (encrypted : bytes)
  : result string :=
  let stretched_key := pbkdf2 key salt (KEY_ITERATIONS settings) in
  box ← SecretBox.init stretched_key;
  decrypted ← SecretBox.decrypt box encrypted;
  decode_utf8 decrypted.

Definition _pepper `{Platform} (encrypted_report : bytes) : M bytes :=
  let pepper := PEPPER settings in
  box ← lift (SecretBox.init pepper);
  nonce ← nacl_utils_random SecretBox.NONCE_SIZE;
  lift (SecretBox.encrypt box encrypted_report nonce).

Definition _unpepper `{Platform} (peppered_report : bytes) : result bytes :=
  let pepper := PEPPER settings in
  box ← SecretBox.init pepper;
  decrypted ← SecretBox.decrypt box peppered_report;
  mret decrypted.

(** Truth value of a [str]: only the empty string is false. *)
Definition truthy (s : string) : bool :=
  match s with
  | EmptyString => false
  | String _ _ => true
  end.

(** ** [class MatchReport] *)

Module MatchReport.
Record t : Type := {
  pk : Z;
  report : Z;
  contact_email : string;
  identifier : option string;
  added : Z;
  seen : bool;
  encrypted : bytes;
  salt : string;
}.

Definition set_salt (v : string) (self : t) : t :=
  {| pk := pk self; report := report self;
     contact_email := contact_email self; identifier := identifier self;
     added := added self; seen := seen self;
     encrypted := encrypted self; salt := v |}.

Definition set_encrypted (v : bytes) (self : t) : t :=
  {| pk := pk self; report := report self;
     contact_email := contact_email self; identifier := identifier self;
     added := added self; seen := seen self;
     encrypted := v; salt := salt self |}.

(** The method returns the object as the call leaves it. *)
Definition encrypt_match_report `{Platform}
  (self : t) (report_text key : string) : M t :=
  fresh ← get_random_string;
  let self := set_salt fresh self in
  blob ← _encrypt_report (salt self) key report_text;
  peppered ← _pepper blob;
  mret (set_encrypted peppered self).

(** The outcome comes with the object as the call leaves it; the body
    assigns no attribute of [self]. [except CryptoError: pass] catches
    the instances of [CryptoError] and lets any other exception
    through. *)
Definition get_match `{Platform} (self : t) (identifier : string)
  : result (option string) * t :=
  let decrypted_report : option string := None in
  let attempt :=
    unpeppered ← _unpepper (encrypted self);
    _decrypt_report (salt self) identifier unpeppered in
  match attempt with
  | Return text => (Return (Some text), self)
  | Raise e =>
      if isinstance_CryptoError e then (Return decrypted_report, self)
      else (Raise e, self)
  end.
End MatchReport.

(** The rows of the [MatchReport] table, by primary key. *)
Abbreviation Database := (gmap Z MatchReport.t).

(** ** Querysets and string formatting *)

(** [queryset.first()] on a queryset with no ordering of its own: the
    rows are taken by primary key and the first one is returned, [None]
    when there is no row. *)
Definition queryset_first {A : Type} (rows : gmap Z A) : option (Z * A) :=
  map_fold (λ k row acc,
              match acc with
              | Some (k', _) => if (k <? k')%Z then Some (k, row) else acc
              | None => Some (k, row)
              end) None rows.

(** The decimal digits of a natural number. *)
Definition decimal (n : N) : string := NilZero.string_of_uint (N.to_uint n).

Fixpoint zeros (n : nat) : string :=
  match n with
  | O => EmptyString
  | S n => String "0" (zeros n)
  end.

(** Zeros in front of [digits], up to [width] characters. *)
Definition zero_fill (width : nat) (digits : string) : string :=
  zeros (width - String.length digits) +:+ digits.

(** [str(n)], which is also ['{0}'.format(n)], for an [int]. *)
Definition format_int (n : Z) : string :=
  if (n <? 0)%Z then String "-" (decimal (Z.abs_N n))
  else decimal (Z.abs_N n).

(** ['%05d' % n]: the sign, then the digits with zeros in front so that
    the whole has at least five characters. *)
Definition format_05d (n : Z) : string :=
  if (n <? 0)%Z then String "-" (zero_fill 4 (decimal (Z.abs_N n)))
  else zero_fill 5 (decimal (Z.abs_N n)).

(** [int(s)] on a string of an optional sign and decimal digits. *)
Definition parse_int (s : string) : option Z :=
  Z.of_int <$> NilZero.int_of_string s.

(** ** [class SentReport] and its two subclasses *)

Module SentReport.
Record t : Type := {
  id : Z;
  sent : Z;
  to_address : string;
}.

(** [settings.SCHOOL_REPORT_PREFIX] is the first argument. *)
Definition _get_id_for_schools (SCHOOL_REPORT_PREFIX : string) (self : t)
  (is_match : bool) : string :=
  SCHOOL_REPORT_PREFIX +:+ "-" +:+ format_05d (id self) +:+ "-"
  +:+ format_int (if is_match then 0 else 1).
End SentReport.

Module SentFullReport.
(** The fields of [SentReport] and the nullable link to a [Report]. *)
Record t : Type := {
  base : SentReport.t;
  report : option Z;
}.

Definition get_report_id (SCHOOL_REPORT_PREFIX : string) (self : t)
  : string :=
  SentReport._get_id_for_schools SCHOOL_REPORT_PREFIX (base self) false.
End SentFullReport.

Module SentMatchReport.
(** The fields of [SentReport] and the linked [MatchReport]s. *)
Record t : Type := {
  base : SentReport.t;
  reports : gset Z;
}.

Definition get_report_id (SCHOOL_REPORT_PREFIX : string) (self : t)
  : string :=
  SentReport._get_id_for_schools SCHOOL_REPORT_PREFIX (base self) true.
End SentMatchReport.

(** ** [class Report] *)

Module Report.
(** The fields of the model; the contact fields, which no method below
    reads or writes, are left out. Times are numbers, [None] is a null
    column. *)
Record t : Type := {
  pk : Z;
  encrypted : bytes;
  owner : Z;
  added : Z;
  autosaved : bool;
  last_edited : option Z;
  salt : string;
  submitted_to_school : option Z;
  match_found : bool;
}.

Definition set_salt (v : string) (self : t) : t :=
  {| pk := pk self; encrypted := encrypted self; owner := owner self;
     added := added self; autosaved := autosaved self;
     last_edited := last_edited self; salt := v;
     submitted_to_school := submitted_to_school self;
     match_found := match_found self |}.

Definition set_last_edited (v : option Z) (self : t) : t :=
  {| pk := pk self; encrypted := encrypted self; owner := owner self;
     added := added self; autosaved := autosaved self;
     last_edited := v; salt := salt self;
     submitted_to_school := submitted_to_school self;
     match_found := match_found self |}.

Definition set_autosaved (v : bool) (self : t) : t :=
  {| pk := pk self; encrypted := encrypted self; owner := owner self;
     added := added self; autosaved := v;
     last_edited := last_edited self; salt := salt self;
     submitted_to_school := submitted_to_school self;
     match_found := match_found self |}.

Definition set_encrypted (v : bytes) (self : t) : t :=
  {| pk := pk self; encrypted := v; owner := owner self;
     added := added self; autosaved := autosaved self;
     last_edited := last_edited self; salt := salt self;
     submitted_to_school := submitted_to_school self;
     match_found := match_found self |}.

Definition set_match_found (v : bool) (self : t) : t :=
  {| pk := pk self; encrypted := encrypted self; owner := owner self;
     added := added self; autosaved := autosaved self;
     last_edited := last_edited self; salt := salt self;
     submitted_to_school := submitted_to_school self;
     match_found := v |}.

Definition encrypt_report `{Platform}
  (self : t) (report_text key : string) (edit autosave : bool) : M t :=
  self ← (if negb (truthy (salt self)) then
            fresh ← get_random_string;
            mret (set_salt fresh self)
          else if edit then
            now ← timezone_now;
            mret (set_last_edited (Some now) self)
          else mret self);
  let self := set_autosaved autosave self in
  blob ← _encrypt_report (salt self) key report_text;
  mret (set_encrypted blob self).

Definition decrypted_report `{Platform} (self : t) (key : string)
  : result string :=
  _decrypt_report (salt self) key (encrypted self).

(** [self.matchreport_set.all().delete()] removes from the table the
    rows whose [report] is this object; [match_found] is set on the
    object in memory. *)
Definition withdraw_from_matching (self : t) (db : Database)
  : t * Database :=
  let db := filter (λ row, MatchReport.report row.2 ≠ pk self) db in
  let self := set_match_found false self in
  (self, db).

(** [self.matchreport_set], the rows of the table that point to this
    report. *)
Definition matchreport_set (self : t) (db : Database) : Database :=
  filter (λ row, MatchReport.report row.2 = pk self) db.

(** The property [entered_into_matching]. A model instance is always
    true, so the test is whether there is a first row. *)
Definition entered_into_matching (self : t) (db : Database) : option Z :=
  let first_match_report := queryset_first (matchreport_set self db) in
  match first_match_report with
  | Some (_, first_match_report) => Some (MatchReport.added first_match_report)
  | None => None
  end.

(** [self.sentfullreport_set], in the table of [SentFullReport]. *)
Definition sentfullreport_set (self : t) (sent : gmap Z SentFullReport.t)
  : gmap Z SentFullReport.t :=
  filter (λ row, SentFullReport.report row.2 = Some (pk self)) sent.

(** The property [get_submitted_report_id]. A date is always true, so
    [if self.submitted_to_school] tests for [None]. *)
Definition get_submitted_report_id (SCHOOL_REPORT_PREFIX : string)
  (self : t) (sent : gmap Z SentFullReport.t) : option string :=
  match submitted_to_school self with
  | Some _ =>
      let sent_report := queryset_first (sentfullreport_set self sent) in
      let report_id :=
        match sent_report with
        | Some (_, sent_report) =>
            Some (SentFullReport.get_report_id SCHOOL_REPORT_PREFIX
                    sent_report)
        | None => None
        end in
      report_id
  | None => None
  end.
End Report.

(** ** [wizard.py]: [class EncryptedFormBaseWizard] *)

Module EncryptedFormBaseWizard.

(** The classes in a wizard's form list: the two key forms and the pages
    that [wizard_builder.forms.get_form_pages] returns.
    [EditSecretKeyForm] is the class that [get_key_form] builds with
    [type(...)], with its [report] attribute. *)
Inductive form_class (Page : Type) : Type :=
  | NewSecretKeyForm
  | EditSecretKeyForm (report : Report.t)
  | PageForm (page : Page).
Arguments NewSecretKeyForm {Page}.
Arguments EditSecretKeyForm {Page} report.
Arguments PageForm {Page} page.

Definition get_key_form {Page : Type} (record_to_edit : option Report.t)
  : form_class Page :=
  match record_to_edit with
  | Some record_to_edit => EditSecretKeyForm record_to_edit
  | None => NewSecretKeyForm
  end.

(** [form_list.insert(0, ...)] puts the key form in front. *)
Definition generate_form_list {PageMap Pages Page : Type}
  (get_form_pages : PageMap → list Page)
  (page_map : PageMap) (pages : Pages) (record_to_edit : option Report.t)
  : list (form_class Page) :=
  let form_list := PageForm <$> get_form_pages page_map in
  get_key_form record_to_edit :: form_list.

Definition calculate_real_page_index {Pages : Type}
  (raw_idx : nat) (pages : Pages) (record_to_edit : option Report.t) : nat :=
  raw_idx + 1.

(** What [done] reads of the request, of a bound form and of the wizard
    object. *)
Record HttpRequest : Type := { user : Z }.

Record bound_form : Type := { cleaned_data : gmap string string }.

Record t (Answers : Type) : Type := {
  request : HttpRequest;
  object_to_edit : option Report.t;
  processed_answers : Answers;
}.
Arguments request {Answers} _.
Arguments object_to_edit {Answers} _.
Arguments processed_answers {Answers} _.

(** What [done] returns: one of the two refusals, or what
    [wizard_complete] returns. *)
Inductive response (Done : Type) : Type :=
  | HttpResponseForbidden
  | HttpResponseNotFound
  | Complete (r : Done).
Arguments HttpResponseForbidden {Done}.
Arguments HttpResponseNotFound {Done}.
Arguments Complete {Done} r.

(** What [done] can raise: [list(form_list)[0]] on an empty list,
    [cleaned_data['key']] on a form without key, what [encrypt_report]
    raises, and what [wizard_complete] raises. *)
Inductive raised : Type :=
  | IndexError
  | KeyError
  | NotImplementedError
  | Library (e : exn).

Inductive outcome (Done : Type) : Type :=
  | Responded (r : response Done)
  | Raised (e : raised).
Arguments Responded {Done} r.
Arguments Raised {Done} e.

(** [wizard_complete] of the class itself, which a subclass has to
    override: it raises [NotImplementedError]. A [wizard_complete]
    returns a value or raises. *)
Definition wizard_complete {Done : Type} (report : Report.t)
  : Done + raised :=
  inr NotImplementedError.

(** [return self.wizard_complete(report, **kwargs)]: what the call
    returns is returned, what it raises leaves [done]. *)
Definition returned {Done : Type} (completed : Done + raised)
  : outcome Done :=
  match completed with
  | inl r => Responded (Complete r)
  | inr e => Raised e
  end.

(** [EvalRow.EDIT] and [EvalRow.CREATE]. *)
Inductive eval_action : Type := EDIT | CREATE.

(** The database as [done] uses it: the table of reports by primary key,
    the next key of its sequence, and the calls made to
    [EvalRow.store_eval_row], oldest first. *)
Record Storage : Type := {
  reports : gmap Z Report.t;
  next_report_pk : Z;
  eval_rows : list (eval_action * Report.t * string);
}.

(** [Report(owner=...)]: the fields have their defaults. The primary key
    and [added] are what the insertion by [save()] will give the row;
    nothing reads them before. *)
Definition new_Report (owner pk added : Z) : Report.t :=
  {| Report.pk := pk; Report.encrypted := []; Report.owner := owner;
     Report.added := added; Report.autosaved := false;
     Report.last_edited := None; Report.salt := EmptyString;
     Report.submitted_to_school := None; Report.match_found := false |}.

(** [report.save()]: the row is written under its primary key, and the
    sequence stays beyond every key in use. *)
Definition save (report : Report.t) (st : Storage) : Storage :=
  {| reports := <[Report.pk report := report]> (reports st);
     next_report_pk := Z.max (next_report_pk st) (Report.pk report + 1);
     eval_rows := eval_rows st |}.

Definition store_eval_row (action : eval_action) (report : Report.t)
  (decrypted_text : string) (st : Storage) : Storage :=
  {| reports := reports st;
     next_report_pk := next_report_pk st;
     eval_rows := eval_rows st ++ [(action, report, decrypted_text)] |}.

(** [done]. [json_dumps] is [json.dumps(..., sort_keys=True)],
    [wizard_complete] is the method of the object's class (that of a
    subclass, or the one above), called after the report is saved and the
    evaluation row stored; [DEBUG] is [settings.DEBUG] and
    [kwargs_request] is [kwargs.get('request')]. The call to
    [logger.error] is left out. *)
Definition done `{Platform} {Answers Done : Type}
  (json_dumps : Answers → string)
  (wizard_complete : Report.t → Done + raised)
  (DEBUG : bool)
  (self : t Answers) (form_list : list bound_form)
  (kwargs_request : option HttpRequest)
  (st : Storage) (w : World) : outcome Done * Storage * World :=
  let req := default (request self) kwargs_request in
  let report := new_Report (user req) (next_report_pk st) (clock w) in
  let checked : Report.t + response Done :=
    match object_to_edit self with
    | Some object_to_edit =>
        if decide (Report.owner object_to_edit = user req)
        then inl object_to_edit
        else inr (if DEBUG then HttpResponseForbidden
                  else HttpResponseNotFound)
    | None => inl report
    end in
  match checked with
  | inr refusal => (Responded refusal, st, w)
  | inl report =>
      match form_list with
      | [] => (Raised IndexError, st, w)
      | key_form :: _ =>
          match cleaned_data key_form !! "key" with
          | None => (Raised KeyError, st, w)
          | Some key =>
              let report_text := json_dumps (processed_answers self) in
              match Report.encrypt_report report report_text key
                      false false w with
              | (Raise e, w) => (Raised (Library e), st, w)
              | (Return report, w) =>
                  let st := save report st in
                  let action :=
                    match object_to_edit self with
                    | Some _ => EDIT
                    | None => CREATE
                    end in
                  let st := store_eval_row action report report_text st in
                  (returned (wizard_complete report), st, w)
              end
          end
      end
  end.

(** [get_template_names]; [on_first_step] is
    [self.steps.current == self.steps.first]. *)
Definition get_template_names {Answers : Type} (self : t Answers)
  (on_first_step : bool) : list string :=
  if on_first_step then
    match object_to_edit self with
    | Some _ => ["decrypt_record_for_edit.html"]
    | None => ["create_key.html"]
    end
  else ["record_form.html"].
End EncryptedFormBaseWizard.

(** ** A reference platform

    A small, fully computable platform: the key and the nonce are written
    in front of the message, which is written twice, so that opening can
    check everything. It serves to run the model on concrete inputs and to
    show that the laws below can be met together. *)

Module Ref.
Definition byte_of_nat (n : nat) : byte := default x00 (Byte.of_nat n).

Definition string_bytes (s : string) : bytes := list_byte_of_string s.

Definition pbkdf2 (password salt : string) (iterations : N) : bytes :=
  take 32 (string_bytes password ++ string_bytes salt ++ replicate 32 x00).

Definition crypto_secretbox (message nonce key : bytes) : bytes :=
  key ++ nonce ++ message ++ message.

Definition crypto_secretbox_open (ciphertext nonce key : bytes)
  : option bytes :=
  let body := drop (length key + length nonce) ciphertext in
  let message := take (length body / 2) body in
  if decide (ciphertext = crypto_secretbox message nonce key)
  then Some message else None.

(** UTF-8 for the code points below 256, one per character. *)
Definition encode_char (c : ascii) : bytes :=
  let n := nat_of_ascii c in
  if n <? 128 then [byte_of_nat n]
  else [byte_of_nat (192 + n / 64); byte_of_nat (128 + n mod 64)].

Fixpoint utf8_encode (s : string) : bytes :=
  match s with
  | EmptyString => []
  | String c rest => encode_char c ++ utf8_encode rest
  end.

Fixpoint utf8_decode (bs : bytes) : option string :=
  match bs with
  | [] => Some EmptyString
  | b :: rest =>
      let n := Byte.to_nat b in
      if n <? 128 then String (ascii_of_nat n) <$> utf8_decode rest
      else
        match rest with
        | [] => None
        | b2 :: rest' =>
            let n2 := Byte.to_nat b2 in
            if ((n =? 194) || (n =? 195)) && (128 <=? n2) && (n2 <? 192)
            then String (ascii_of_nat ((n - 192) * 64 + (n2 - 128)))
                   <$> utf8_decode rest'
            else None
        end
  end.

Definition os_urandom (size : nat) (s : nat) : bytes * nat :=
  (replicate size (byte_of_nat (s mod 256)), S s).

Definition system_random_string (s : nat) : string * nat :=
  (String (ascii_of_nat (97 + s mod 26)) "bcdefghijkl", S s).

Definition settings : Settings :=
  {| KEY_ITERATIONS := 100000; PEPPER := replicate 32 x70 |}.

#[global] Instance platform : Platform :=
  Build_Platform settings pbkdf2 crypto_secretbox crypto_secretbox_open
    utf8_encode utf8_decode nat os_urandom system_random_string.

Definition world0 : World := {| seed := 0; clock := 1000 |}.

(** Sample objects. *)
Definition match_report (salt : string) : MatchReport.t :=
  {| MatchReport.pk := 1; MatchReport.report := 7;
     MatchReport.contact_email := "reporter@example.org";
     MatchReport.identifier := None; MatchReport.added := 0;
     MatchReport.seen := false; MatchReport.encrypted := [];
     MatchReport.salt := salt |}.

(** A row of another report. *)
Definition other_match_report : MatchReport.t :=
  {| MatchReport.pk := 2; MatchReport.report := 8;
     MatchReport.contact_email := "other@example.org";
     MatchReport.identifier := None; MatchReport.added := 0;
     MatchReport.seen := false; MatchReport.encrypted := [];
     MatchReport.salt := "b" |}.

Definition report (salt : string) : Report.t :=
  {| Report.pk := 7; Report.encrypted := []; Report.owner := 3;
     Report.added := 0; Report.autosaved := false;
     Report.last_edited := None; Report.salt := salt;
     Report.submitted_to_school := None; Report.match_found := false |}.

(** A stored blob that opens under the pepper and under the key
    stretched from ["alice123"] and salt ["s"], and whose plaintext is
    the single byte [0xff], which is not UTF-8. *)
Definition undecodable_blob : bytes :=
  let nonce1 := replicate 24 x01 in
  let nonce2 := replicate 24 x02 in
  let inner :=
    nonce1 ++ crypto_secretbox [xff] nonce1 (pbkdf2 "alice123" "s" 100000)
  in nonce2 ++ crypto_secretbox inner nonce2 (PEPPER settings).

Definition undecodable_record : MatchReport.t :=
  MatchReport.set_encrypted undecodable_blob (match_report "s").
End Ref.

(** ** Laws of the external libraries *)

(** PBKDF2 with SHA-256 and no explicit length, run with the configured
    number of iterations, returns one digest. *)
Definition pbkdf2_sha256_length `{Platform} : Prop :=
  ∀ password salt,
    length (pbkdf2 password salt (KEY_ITERATIONS settings)) = 32.

(** [settings.PEPPER] is set to a 32 byte value, as [_pepper] requires. *)
Definition pepper_configured `{Platform} : Prop :=
  length (PEPPER settings) = 32.

(** [os.urandom(size)] returns [size] bytes. *)
Definition urandom_length `{Platform} : Prop :=
  ∀ size s, length (os_urandom size s).1 = size.

(** [get_random_string()] returns twelve characters, so never [''] . *)
Definition random_string_truthy `{Platform} : Prop :=
  ∀ s, truthy (system_random_string s).1 = true.

(** Opening a box with the key and nonce that sealed it gives the
    message. *)
Definition secretbox_open_seal `{Platform} : Prop :=
  ∀ m n k, length k = 32 → length n = 24 →
    crypto_secretbox_open (crypto_secretbox m n k) n k = Some m.

(** Sealing is deterministic and opening recomputes the authenticator: what
    opens to [m] under [n] and [k] is the box of [m] under [n] and [k]. *)
Definition secretbox_open_genuine `{Platform} : Prop :=
  ∀ c n k m, crypto_secretbox_open c n k = Some m →
    c = crypto_secretbox m n k.

(** Decoding what was encoded gives the text back. *)
Definition utf8_decode_encode `{Platform} : Prop :=
  ∀ s, utf8_decode (utf8_encode s) = Some s.

(** The bytes a call of [nacl.utils.random(size)] returns in world [w], and
    the world it leaves. *)
Definition urandom_bytes `{Platform} (size : nat) (w : World) : bytes :=
  (os_urandom size (seed w)).1.

Definition urandom_world `{Platform} (size : nat) (w : World) : World :=
  {| seed := (os_urandom size (seed w)).2; clock := clock w |}.

(** The string [get_random_string()] returns in world [w], and the world
    it leaves. *)
Definition random_string `{Platform} (w : World) : string :=
  (system_random_string (seed w)).1.

Definition random_string_world `{Platform} (w : World) : World :=
  {| seed := (system_random_string (seed w)).2; clock := clock w |}.

(** The key [SecretBox] is built from in [_encrypt_report] and
    [_decrypt_report]. *)
Definition stretched_key `{Platform} (salt key : string) : bytes :=
  pbkdf2 key salt (KEY_ITERATIONS settings).

(** What [_encrypt_report] returns in world [w]: the nonce drawn there,
    followed by the box of the encoded text under the stretched key. *)
Definition report_blob `{Platform} (salt key report_text : string)
  (w : World) : bytes :=
  urandom_bytes 24 w
  ++ crypto_secretbox (utf8_encode report_text) (urandom_bytes 24 w)
       (stretched_key salt key).

(** What [_pepper] returns in world [w]. *)
Definition pepper_blob `{Platform} (blob : bytes) (w : World) : bytes :=
  urandom_bytes 24 w
  ++ crypto_secretbox blob (urandom_bytes 24 w) (PEPPER settings).

(** The [width] low decimal digits of [n], lowest first; used to bound
    the length of what ['%05d'] prints. *)
Definition digit (c : N) (rest : Decimal.uint) : Decimal.uint :=
  match c with
  | 0%N => Decimal.D0 rest
  | 1%N => Decimal.D1 rest
  | 2%N => Decimal.D2 rest
  | 3%N => Decimal.D3 rest
  | 4%N => Decimal.D4 rest
  | 5%N => Decimal.D5 rest
  | 6%N => Decimal.D6 rest
  | 7%N => Decimal.D7 rest
  | 8%N => Decimal.D8 rest
  | _ => Decimal.D9 rest
  end.

Fixpoint low_digits (width : nat) (n : N) : Decimal.uint :=
  match width with
  | O => Decimal.Nil
  | S width => digit (n mod 10) (low_digits width (n / 10))
  end.

(** ** Sample data on the reference platform *)

Module Sample.
(** A record whose stored blob, forty zero bytes, is no pepper encryption:
    it is long enough to hold a nonce, and the cipher rejects it. *)
Definition foreign_record : MatchReport.t :=
  MatchReport.set_encrypted (replicate 40 x00) (Ref.match_report "s").

Definition sent_report (id : Z) : SentReport.t :=
  {| SentReport.id := id; SentReport.sent := 0;
     SentReport.to_address := "school@example.org" |}.

Definition key_form : EncryptedFormBaseWizard.bound_form :=
  {| EncryptedFormBaseWizard.cleaned_data :=
       {[ "key"%string := "supersecret"%string ]} |}.

(** A wizard of user 3 that creates a report, and one that edits the
    report 7 of user 3. *)
Definition creating : EncryptedFormBaseWizard.t string :=
  {| EncryptedFormBaseWizard.request :=
       {| EncryptedFormBaseWizard.user := 3 |};
     EncryptedFormBaseWizard.object_to_edit := None;
     EncryptedFormBaseWizard.processed_answers := "{}" |}.

Definition editing (user : Z) : EncryptedFormBaseWizard.t string :=
  {| EncryptedFormBaseWizard.request :=
       {| EncryptedFormBaseWizard.user := user |};
     EncryptedFormBaseWizard.object_to_edit := Some (Ref.report "original");
     EncryptedFormBaseWizard.processed_answers := "{}" |}.

Definition storage : EncryptedFormBaseWizard.Storage :=
  {| EncryptedFormBaseWizard.reports := {[ 7%Z := Ref.report "original" ]};
     EncryptedFormBaseWizard.next_report_pk := 8;
     EncryptedFormBaseWizard.eval_rows := [] |}.

(** Two submitted reports and the table of their sent reports. *)
Definition submitted (pk : Z) : Report.t :=
  {| Report.pk := pk; Report.encrypted := []; Report.owner := 3;
     Report.added := 0; Report.autosaved := false;
     Report.last_edited := None; Report.salt := "original";
     Report.submitted_to_school := Some 500%Z;
     Report.match_found := false |}.

Definition sent_full (id report : Z) : SentFullReport.t :=
  {| SentFullReport.base := sent_report id;
     SentFullReport.report := Some report |}.

Definition sent_table : gmap Z SentFullReport.t :=
  {[ 1%Z := sent_full 1 7; 2%Z := sent_full 2 8 ]}.
End Sample.

(** * Properties *)

(** ** Evaluation lemmas *)

Section Evaluation.
Context `{Platform}.

Lemma nacl_utils_random_eq size w :
  nacl_utils_random size w
  = (Return (urandom_bytes size w), urandom_world size w).
Proof.
  unfold nacl_utils_random, urandom_bytes, urandom_world.
  by destruct (os_urandom size (seed w)).
Qed.

Lemma get_random_string_eq w :
  get_random_string w = (Return (random_string w), random_string_world w).
Proof.
  unfold get_random_string, random_string, random_string_world.
  by destruct (system_random_string (seed w)).
Qed.

Lemma bind_Return {A B} (m : M A) (f : A → M B) w a w' :
  m w = (Return a, w') → (m ≫= f) w = f a w'.
Proof. intros Hm. unfold mbind, M_bind. by rewrite Hm. Qed.

Lemma bind_mret {A B} (a : A) (f : A → M B) w : (mret a ≫= f) w = f a w.
Proof. done. Qed.

Lemma bind_assoc {A B C} (m : M A) (f : A → M B) (g : B → M C) w :
  ((m ≫= f) ≫= g) w = (m ≫= λ a, f a ≫= g) w.
Proof.
  unfold mbind, M_bind. by destruct (m w) as [[a|e] w'].
Qed.

Lemma bind_get_random_string {B} (f : string → M B) w :
  (get_random_string ≫= f) w = f (random_string w) (random_string_world w).
Proof. apply bind_Return, get_random_string_eq. Qed.

Lemma bind_timezone_now {B} (f : Z → M B) w :
  (timezone_now ≫= f) w = f (clock w) w.
Proof. done. Qed.

Lemma SecretBox_init_ok k :
  length k = 32 → SecretBox.init k = Return {| SecretBox._key := k |}.
Proof.
  intros Hk. unfold SecretBox.init, SecretBox.KEY_SIZE.
  by rewrite decide_True.
Qed.

Lemma SecretBox_encrypt_ok k m n :
  length n = 24 →
  SecretBox.encrypt {| SecretBox._key := k |} m n
  = Return (n ++ crypto_secretbox m n k).
Proof.
  intros Hn. unfold SecretBox.encrypt, SecretBox.NONCE_SIZE.
  by rewrite decide_True.
Qed.

Lemma SecretBox_decrypt_sealed k n c :
  length n = 24 →
  SecretBox.decrypt {| SecretBox._key := k |} (n ++ c)
  = match crypto_secretbox_open c n k with
    | Some plaintext => Return plaintext
    | None => Raise CryptoError
    end.
Proof.
  intros Hn. unfold SecretBox.decrypt, SecretBox.NONCE_SIZE. simpl.
  rewrite take_app_length', drop_app_length' by done.
  by rewrite decide_True.
Qed.

(** [decrypt] never raises anything but an instance of [CryptoError]. *)
Lemma SecretBox_decrypt_raises box c e :
  SecretBox.decrypt box c = Raise e → isinstance_CryptoError e = true.
Proof.
  unfold SecretBox.decrypt. case_decide.
  - destruct (crypto_secretbox_open _ _ _); by inversion 1.
  - by inversion 1.
Qed.

(** A successful [decrypt] was given nonce ‖ box. *)
Lemma SecretBox_decrypt_genuine k c m :
  secretbox_open_genuine →
  SecretBox.decrypt {| SecretBox._key := k |} c = Return m →
  ∃ n, length n = 24 ∧ c = n ++ crypto_secretbox m n k.
Proof.
  intros Hgen. unfold SecretBox.decrypt, SecretBox.NONCE_SIZE. simpl.
  case_decide as Hlen; [|done].
  destruct (crypto_secretbox_open _ _ _) as [p|] eqn:Hopen; [|done].
  intros [= ->]. exists (take 24 c). split; [done|].
  apply Hgen in Hopen. by rewrite <- Hopen, take_drop.
Qed.

Lemma _unpepper_sealed n c :
  pepper_configured → length n = 24 →
  _unpepper (n ++ c)
  = match crypto_secretbox_open c n (PEPPER settings) with
    | Some plaintext => Return plaintext
    | None => Raise CryptoError
    end.
Proof.
  intros Hpep Hn. unfold _unpepper, mbind, result_bind.
  rewrite SecretBox_init_ok by done.
  rewrite SecretBox_decrypt_sealed by done.
  by destruct (crypto_secretbox_open _ _ _).
Qed.
Section Sized.
Hypothesis pbkdf2_len : pbkdf2_sha256_length.
Hypothesis urandom_len : urandom_length.

Lemma urandom_bytes_length size w : length (urandom_bytes size w) = size.
Proof. apply urandom_len. Qed.

Lemma stretched_key_length salt key :
  length (stretched_key salt key) = 32.
Proof. apply pbkdf2_len. Qed.

Lemma _encrypt_report_eq salt key report_text w :
  _encrypt_report salt key report_text w
  = (Return (report_blob salt key report_text w), urandom_world 24 w).
Proof.
  unfold _encrypt_report, report_blob, mbind, M_bind, lift.
  fold (stretched_key salt key).
  rewrite SecretBox_init_ok by apply stretched_key_length.
  unfold SecretBox.NONCE_SIZE. rewrite nacl_utils_random_eq.
  by rewrite SecretBox_encrypt_ok by apply urandom_bytes_length.
Qed.

Lemma _pepper_eq blob w :
  pepper_configured →
  _pepper blob w
  = (Return (pepper_blob blob w), urandom_world 24 w).
Proof.
  intros Hpep. unfold _pepper, pepper_blob, mbind, M_bind, lift.
  rewrite SecretBox_init_ok by done.
  unfold SecretBox.NONCE_SIZE. rewrite nacl_utils_random_eq.
  by rewrite SecretBox_encrypt_ok by apply urandom_bytes_length.
Qed.

Lemma bind__encrypt_report {B} salt key report_text (f : bytes → M B) w :
  (_encrypt_report salt key report_text ≫= f) w
  = f (report_blob salt key report_text w) (urandom_world 24 w).
Proof. apply bind_Return, _encrypt_report_eq. Qed.

Lemma bind__pepper {B} blob (f : bytes → M B) w :
  pepper_configured →
  (_pepper blob ≫= f) w = f (pepper_blob blob w) (urandom_world 24 w).
Proof. intros Hpep. by apply bind_Return, _pepper_eq. Qed.

Lemma _decrypt_report_sealed salt key n c :
  length n = 24 →
  _decrypt_report salt key (n ++ c)
  = match crypto_secretbox_open c n (stretched_key salt key) with
    | Some plaintext => decode_utf8 plaintext
    | None => Raise CryptoError
    end.
Proof.
  intros Hn. unfold _decrypt_report, mbind, result_bind.
  fold (stretched_key salt key).
  rewrite SecretBox_init_ok by apply stretched_key_length.
  rewrite SecretBox_decrypt_sealed by done.
  by destruct (crypto_secretbox_open _ _ _).
Qed.

Lemma _decrypt_report_blob salt key key' report_text w :
  _decrypt_report salt key' (report_blob salt key report_text w)
  = match crypto_secretbox_open
            (crypto_secretbox (utf8_encode report_text)
               (urandom_bytes 24 w) (stretched_key salt key))
            (urandom_bytes 24 w) (stretched_key salt key') with
    | Some plaintext => decode_utf8 plaintext
    | None => Raise CryptoError
    end.
Proof.
  unfold report_blob.
  by rewrite _decrypt_report_sealed by apply urandom_bytes_length.
Qed.

Lemma _decrypt_report_blob_same salt key report_text w :
  secretbox_open_seal → utf8_decode_encode →
  _decrypt_report salt key (report_blob salt key report_text w)
  = Return report_text.
Proof.
  intros Hseal Hutf. rewrite _decrypt_report_blob.
  rewrite Hseal
    by (apply stretched_key_length || apply urandom_bytes_length).
  unfold decode_utf8. by rewrite Hutf.
Qed.

Lemma Report_encrypt_report_first self report_text key edit autosave w :
  truthy (Report.salt self) = false →
  Report.encrypt_report self report_text key edit autosave w
  = (Return
       (Report.set_encrypted
          (report_blob (random_string w) key report_text
             (random_string_world w))
          (Report.set_autosaved autosave
             (Report.set_salt (random_string w) self))),
     urandom_world 24 (random_string_world w)).
Proof.
  intros Hsalt. unfold Report.encrypt_report. rewrite Hsalt. simpl.
  rewrite bind_assoc, bind_get_random_string, bind_mret.
  by rewrite bind__encrypt_report.
Qed.

Lemma Report_encrypt_report_edit self report_text key autosave w :
  truthy (Report.salt self) = true →
  Report.encrypt_report self report_text key true autosave w
  = (Return
       (Report.set_encrypted
          (report_blob (Report.salt self) key report_text w)
          (Report.set_autosaved autosave
             (Report.set_last_edited (Some (clock w)) self))),
     urandom_world 24 w).
Proof.
  intros Hsalt. unfold Report.encrypt_report. rewrite Hsalt. simpl.
  rewrite bind_assoc, bind_timezone_now, bind_mret.
  by rewrite bind__encrypt_report.
Qed.

Lemma Report_encrypt_report_plain self report_text key autosave w :
  truthy (Report.salt self) = true →
  Report.encrypt_report self report_text key false autosave w
  = (Return
       (Report.set_encrypted
          (report_blob (Report.salt self) key report_text w)
          (Report.set_autosaved autosave self)),
     urandom_world 24 w).
Proof.
  intros Hsalt. unfold Report.encrypt_report. rewrite Hsalt. simpl.
  by rewrite bind_mret, bind__encrypt_report.
Qed.
Lemma _unpepper_pepper_blob blob w :
  pepper_configured → secretbox_open_seal →
  _unpepper (pepper_blob blob w) = Return blob.
Proof.
  intros Hpep Hseal. unfold pepper_blob.
  rewrite _unpepper_sealed by (done || apply urandom_bytes_length).
  by rewrite Hseal by (done || apply urandom_bytes_length).
Qed.

Lemma MatchReport_encrypt_match_report_eq self report_text key w :
  pepper_configured →
  MatchReport.encrypt_match_report self report_text key w
  = (Return
       (MatchReport.set_encrypted
          (pepper_blob
             (report_blob (random_string w) key report_text
                (random_string_world w))
             (urandom_world 24 (random_string_world w)))
          (MatchReport.set_salt (random_string w) self)),
     urandom_world 24 (urandom_world 24 (random_string_world w))).
Proof.
  intros Hpep. unfold MatchReport.encrypt_match_report.
  rewrite bind_get_random_string. simpl.
  by rewrite bind__encrypt_report, bind__pepper.
Qed.
End Sized.

(** [_unpepper] raises nothing but instances of [CryptoError]. *)
Lemma _unpepper_raises blob e :
  _unpepper blob = Raise e → isinstance_CryptoError e = true.
Proof.
  unfold _unpepper, SecretBox.init. case_decide; simpl.
  - destruct (SecretBox.decrypt _ blob) as [b|e'] eqn:Hdec; [done|].
    intros [= <-]. by eapply SecretBox_decrypt_raises.
  - by intros [= <-].
Qed.

Lemma get_match_decrypt self identifier blob :
  _unpepper (MatchReport.encrypted self) = Return blob →
  MatchReport.get_match self identifier
  = match _decrypt_report (MatchReport.salt self) identifier blob with
    | Return text => (Return (Some text), self)
    | Raise e =>
        if isinstance_CryptoError e then (Return None, self)
        else (Raise e, self)
    end.
Proof.
  intros Hun. unfold MatchReport.get_match. by rewrite Hun.
Qed.
End Evaluation.

(** ** Round trip *)

(** C1. Decrypting, with the same salt and key, the blob that
    [_encrypt_report] produces returns the plaintext; hence
    [Report.decrypted_report(key)] returns the text last passed to
    [Report.encrypt_report(text, key)]. Encryption itself always returns a
    blob. (From the libraries: PBKDF2-SHA256 gives 32 bytes, [os.urandom]
    gives the size asked, a box opens under the key and nonce that sealed
    it, and UTF-8 decoding inverts encoding.) *)
Theorem decrypt_encrypt_roundtrip `{Platform} :
  pbkdf2_sha256_length → urandom_length →
  secretbox_open_seal → utf8_decode_encode →
  (∀ (salt key P : string) (w : World),
     ∃ blob w',
       _encrypt_report salt key P w = (Return blob, w')
       ∧ _decrypt_report salt key blob = Return P)
  ∧ (∀ (self : Report.t) (text key : string) (edit autosave : bool)
       (w : World),
     ∃ self' w',
       Report.encrypt_report self text key edit autosave w
       = (Return self', w')
       ∧ Report.decrypted_report self' key = Return text).
Proof.
  intros Hpb Hur Hseal Hutf. split.
  - intros salt key P w. eexists _, _. split.
    + by apply _encrypt_report_eq.
    + by apply _decrypt_report_blob_same.
  - intros self text key edit autosave w.
    destruct (truthy (Report.salt self)) eqn:Hsalt; [destruct edit|].
    + eexists _, _. split.
      * by apply Report_encrypt_report_edit.
      * unfold Report.decrypted_report. simpl.
        by apply _decrypt_report_blob_same.
    + eexists _, _. split.
      * by apply Report_encrypt_report_plain.
      * unfold Report.decrypted_report. simpl.
        by apply _decrypt_report_blob_same.
    + eexists _, _. split.
      * by apply Report_encrypt_report_first.
      * unfold Report.decrypted_report. simpl.
        by apply _decrypt_report_blob_same.
Qed.

(** ** The reference platform meets the laws *)

Section RefLaws.
Local Existing Instance Ref.platform.

Lemma Ref_pbkdf2_length : pbkdf2_sha256_length.
Proof.
  intros password salt. simpl. unfold Ref.pbkdf2.
  rewrite length_take, !length_app, length_replicate. lia.
Qed.

Lemma Ref_pepper_configured : pepper_configured.
Proof. reflexivity. Qed.

Lemma Ref_urandom_length : urandom_length.
Proof. intros size s. simpl. apply length_replicate. Qed.

Lemma Ref_random_string_truthy : random_string_truthy.
Proof. intros s. reflexivity. Qed.

Lemma Ref_open_box m n k :
  Ref.crypto_secretbox_open (Ref.crypto_secretbox m n k) n k = Some m.
Proof.
  unfold Ref.crypto_secretbox_open.
  assert (Hbody : drop (length k + length n) (Ref.crypto_secretbox m n k)
                  = m ++ m).
  { unfold Ref.crypto_secretbox.
    rewrite <- drop_drop, drop_app_length. apply drop_app_length. }
  rewrite Hbody.
  assert (Hhalf : length (m ++ m) / 2 = length m).
  { rewrite length_app. replace (length m + length m) with (length m * 2)
      by lia. by rewrite Nat.div_mul. }
  rewrite Hhalf, take_app_length. by rewrite decide_True.
Qed.

Lemma Ref_open_seal : secretbox_open_seal.
Proof. intros m n k _ _. apply Ref_open_box. Qed.

Lemma Ref_open_genuine : secretbox_open_genuine.
Proof.
  intros c n k m. simpl. unfold Ref.crypto_secretbox_open.
  case_decide as Heq; [|done]. by intros [= <-].
Qed.

Lemma Ref_decode_char c bs :
  Ref.utf8_decode (Ref.encode_char c ++ bs)
  = String c <$> Ref.utf8_decode bs.
Proof.
  destruct c as [[] [] [] [] [] [] [] []]; reflexivity.
Qed.

Lemma Ref_utf8_decode_encode : utf8_decode_encode.
Proof.
  intros s. simpl. induction s as [|c s IH]; [done|].
  simpl. by rewrite Ref_decode_char, IH.
Qed.
End RefLaws.

(** ** Layout of the stored blobs *)

(** C9. The blob [_encrypt_report] produces is a nonce of fixed width (24
    bytes) followed by the authenticated ciphertext of the encoded text
    under the stretched key. What [MatchReport.encrypt_match_report]
    stores is the pepper encryption of such a blob: a second nonce
    followed by the box, under [settings.PEPPER], of the first blob, the
    two nonces coming from two successive draws of the random source.
    [Report.encrypt_report] stores the single blob, without pepper. *)
Theorem ciphertext_blob_layout `{Platform} :
  pbkdf2_sha256_length → urandom_length → pepper_configured →
  (∀ (salt key P : string) (w : World),
     ∃ nonce w',
       _encrypt_report salt key P w
       = (Return (nonce ++ crypto_secretbox (utf8_encode P) nonce
                             (stretched_key salt key)), w')
       ∧ length nonce = SecretBox.NONCE_SIZE)
  ∧ (∀ (self : MatchReport.t) (P key : string) (w : World),
     ∃ self' w',
       MatchReport.encrypt_match_report self P key w = (Return self', w')
       ∧ let w1 := random_string_world w in
         let nonce1 := urandom_bytes 24 w1 in
         let nonce2 := urandom_bytes 24 (urandom_world 24 w1) in
         let inner := nonce1 ++ crypto_secretbox (utf8_encode P) nonce1
                        (stretched_key (MatchReport.salt self') key) in
         length nonce1 = SecretBox.NONCE_SIZE
         ∧ length nonce2 = SecretBox.NONCE_SIZE
         ∧ MatchReport.encrypted self'
           = nonce2 ++ crypto_secretbox inner nonce2 (PEPPER settings))
  ∧ (∀ (self : Report.t) (P key : string) (edit autosave : bool)
       (w : World),
     ∃ nonce self' w',
       Report.encrypt_report self P key edit autosave w = (Return self', w')
       ∧ length nonce = SecretBox.NONCE_SIZE
       ∧ Report.encrypted self'
         = nonce ++ crypto_secretbox (utf8_encode P) nonce
                      (stretched_key (Report.salt self') key)).
Proof.
  intros Hpb Hur Hpep. split; [|split].
  - intros salt key P w. eexists _, _. split.
    + by apply _encrypt_report_eq.
    + by apply urandom_bytes_length.
  - intros self P key w. eexists _, _. split.
    + by apply MatchReport_encrypt_match_report_eq.
    + simpl. split; [|split]; try by apply urandom_bytes_length.
      reflexivity.
  - intros self P key edit autosave w.
    destruct (truthy (Report.salt self)) eqn:Hsalt; [destruct edit|].
    + eexists _, _, _. split; [by apply Report_encrypt_report_edit|].
      split; [by apply urandom_bytes_length | reflexivity].
    + eexists _, _, _. split; [by apply Report_encrypt_report_plain|].
      split; [by apply urandom_bytes_length | reflexivity].
    + eexists _, _, _. split; [by apply Report_encrypt_report_first|].
      split; [by apply urandom_bytes_length | reflexivity].
Qed.

(** ** The pepper layer *)

(** C4. With [settings.PEPPER] unchanged, [_unpepper] undoes [_pepper] on
    every byte string; and on a blob that is no pepper encryption under the
    current pepper (one that is not a 24 byte nonce followed by the box of
    some byte string under that nonce and [settings.PEPPER]), [_unpepper]
    raises an instance of [CryptoError]. *)
Theorem pepper_roundtrip_fail_closed `{Platform} :
  pepper_configured → urandom_length →
  secretbox_open_seal → secretbox_open_genuine →
  (∀ (B : bytes) (w : World),
     ∃ blob w', _pepper B w = (Return blob, w') ∧ _unpepper blob = Return B)
  ∧ (∀ blob : bytes,
       (∀ B n, length n = 24 →
          blob ≠ n ++ crypto_secretbox B n (PEPPER settings)) →
       ∃ e, _unpepper blob = Raise e ∧ isinstance_CryptoError e = true).
Proof.
  intros Hpep Hur Hseal Hgen. split.
  - intros B w. eexists _, _. split.
    + by apply _pepper_eq.
    + by apply _unpepper_pepper_blob.
  - intros blob Hforeign.
    destruct (_unpepper blob) as [B|e] eqn:Hun.
    + exfalso. unfold _unpepper in Hun.
      rewrite SecretBox_init_ok in Hun by done. simpl in Hun.
      destruct (SecretBox.decrypt _ blob) as [B'|] eqn:Hdec; [|done].
      apply SecretBox_decrypt_genuine in Hdec as (n & Hn & Hblob); [|done].
      by eapply Hforeign.
    + exists e. split; [done|]. by eapply _unpepper_raises.
Qed.

(** ** Matching and authentication *)

Section Matching.
Context `{Platform}.
Hypothesis pbkdf2_len : pbkdf2_sha256_length.
Hypothesis urandom_len : urandom_length.
Hypothesis pepper_ok : pepper_configured.
Hypothesis open_seal : secretbox_open_seal.

Lemma get_match_same self salt key P w1 w2 :
  utf8_decode_encode →
  MatchReport.salt self = salt →
  MatchReport.encrypted self = pepper_blob (report_blob salt key P w1) w2 →
  MatchReport.get_match self key = (Return (Some P), self).
Proof.
  intros Hutf Hsalt Henc.
  rewrite (get_match_decrypt _ _ (report_blob salt key P w1))
    by (rewrite Henc; by apply _unpepper_pepper_blob).
  by rewrite Hsalt, _decrypt_report_blob_same.
Qed.

(** The identifier a record was submitted under gets its text back. *)
Lemma get_match_same_identifier (self : MatchReport.t) (P id : string)
  (w : World) :
  utf8_decode_encode →
  ∃ self' w',
    MatchReport.encrypt_match_report self P id w = (Return self', w')
    ∧ MatchReport.get_match self' id = (Return (Some P), self').
Proof.
  intros Hutf. eexists _, _. split.
  - by apply MatchReport_encrypt_match_report_eq.
  - by eapply get_match_same.
Qed.

(** Whether another key, or a changed blob, is refused is the cipher's
    verdict, which holds up to the chance of forging its authenticator and
    is no law here. What the code adds: a text [_decrypt_report] returns is
    the decoding of a message sealed under that very key, never a damaged
    reading of a message sealed under another. *)
Lemma _decrypt_report_authentic (salt key : string) (blob : bytes)
  (text : string) :
  secretbox_open_genuine →
  _decrypt_report salt key blob = Return text →
  ∃ n m,
    length n = 24
    ∧ blob = n ++ crypto_secretbox m n (stretched_key salt key)
    ∧ utf8_decode m = Some text.
Proof.
  intros Hgen. unfold _decrypt_report. fold (stretched_key salt key).
  rewrite SecretBox_init_ok by by apply stretched_key_length.
  simpl. destruct (SecretBox.decrypt _ blob) as [m|e] eqn:Hdec; [|done].
  simpl. unfold decode_utf8.
  destruct (utf8_decode m) as [s|] eqn:Hutf; [|done]. intros [= ->].
  apply SecretBox_decrypt_genuine in Hdec as (n & Hn & Hblob); [|done].
  by exists n, m.
Qed.
End Matching.

(** ** Salts *)

(** C5, as the code has it. A [Report]'s salt is generated at its first
    encryption, while the salt is still empty, and never regenerated:
    [encrypt_report] leaves a non-empty salt unchanged, so that a second
    encryption of a report keeps the salt the first one left.
    [MatchReport.encrypt_match_report] instead stores a freshly generated
    salt at every call, whatever the salt was. *)
Theorem salt_generation `{Platform} :
  pbkdf2_sha256_length → urandom_length → pepper_configured →
  random_string_truthy →
  (∀ (self : Report.t) (text key : string) (edit autosave : bool)
     (w : World),
     ∃ self' w',
       Report.encrypt_report self text key edit autosave w
       = (Return self', w')
       ∧ Report.salt self'
         = if truthy (Report.salt self) then Report.salt self
           else random_string w)
  ∧ (∀ (self : Report.t) (text1 key1 text2 key2 : string)
       (edit1 autosave1 edit2 autosave2 : bool) (w : World),
     ∃ self1 w1 self2 w2,
       Report.encrypt_report self text1 key1 edit1 autosave1 w
       = (Return self1, w1)
       ∧ Report.encrypt_report self1 text2 key2 edit2 autosave2 w1
         = (Return self2, w2)
       ∧ Report.salt self2 = Report.salt self1)
  ∧ (∀ (self : MatchReport.t) (text key : string) (w : World),
     ∃ self' w',
       MatchReport.encrypt_match_report self text key w = (Return self', w')
       ∧ MatchReport.salt self' = random_string w).
Proof.
  intros Hpb Hur Hpep Hrand.
  assert (Hcall : ∀ (self : Report.t) text key edit autosave w,
            ∃ self' w',
              Report.encrypt_report self text key edit autosave w
              = (Return self', w')
              ∧ Report.salt self'
                = if truthy (Report.salt self) then Report.salt self
                  else random_string w).
  { intros self text key edit autosave w.
    destruct (truthy (Report.salt self)) eqn:Hsalt; [destruct edit|];
      eexists _, _.
    - split; [by apply Report_encrypt_report_edit | done].
    - split; [by apply Report_encrypt_report_plain | done].
    - split; [by apply Report_encrypt_report_first | done]. }
  split; [exact Hcall | split].
  - intros self text1 key1 text2 key2 edit1 autosave1 edit2 autosave2 w.
    destruct (Hcall self text1 key1 edit1 autosave1 w)
      as (self1 & w1 & Hfirst & Hsalt1).
    destruct (Hcall self1 text2 key2 edit2 autosave2 w1)
      as (self2 & w2 & Hsecond & Hsalt2).
    exists self1, w1, self2, w2. do 2 (split; [done|]).
    assert (Hset : truthy (Report.salt self1) = true).
    { rewrite Hsalt1. destruct (truthy (Report.salt self)) eqn:Hsalt;
        [done | apply Hrand]. }
    by rewrite Hsalt2, Hset.
  - intros self text key w. eexists _, _.
    split; [by apply MatchReport_encrypt_match_report_eq | done].
Qed.

(** ** The seen flag *)

(** C6, as the code has it. [get_match] assigns no attribute: the record,
    and so its seen flag, is the same after the call as before, whether
    the trial decryption succeeds or fails. *)
Theorem get_match_leaves_record `{Platform} :
  ∀ (self : MatchReport.t) (identifier : string),
    (MatchReport.get_match self identifier).2 = self
    ∧ MatchReport.seen (MatchReport.get_match self identifier).2
      = MatchReport.seen self.
Proof.
  intros self identifier.
  assert (Hsame : (MatchReport.get_match self identifier).2 = self).
  { unfold MatchReport.get_match.
    destruct (_ ≫= _) as [text|e]; [done|].
    by destruct (isinstance_CryptoError e). }
  by rewrite Hsame.
Qed.

(** ** Edit timestamps *)

(** C7, as the code has it. [encrypt_report] sets [last_edited] to the
    current time exactly when the report already has a salt and [edit] is
    true, whatever [autosave] is; in every other call [last_edited] is
    left unchanged. [autosave] is recorded in [autosaved] and nowhere
    else. *)
Theorem last_edited_discipline `{Platform} :
  pbkdf2_sha256_length → urandom_length →
  ∀ (self : Report.t) (text key : string) (edit autosave : bool)
    (w : World),
    ∃ self' w',
      Report.encrypt_report self text key edit autosave w
      = (Return self', w')
      ∧ Report.last_edited self'
        = (if truthy (Report.salt self) && edit then Some (clock w)
           else Report.last_edited self)
      ∧ Report.autosaved self' = autosave.
Proof.
  intros Hpb Hur self text key edit autosave w.
  destruct (truthy (Report.salt self)) eqn:Hsalt; [destruct edit|];
    eexists _, _.
  - split; [by apply Report_encrypt_report_edit | done].
  - split; [by apply Report_encrypt_report_plain | done].
  - split; [by apply Report_encrypt_report_first | done].
Qed.

(** ** Withdrawal *)

(** C8. [withdraw_from_matching] deletes every [MatchReport] of the report
    (and no other row), sets [match_found] to false, and a second call
    changes nothing more. *)
Theorem withdraw_from_matching_idempotent :
  ∀ (self : Report.t) (db : Database),
    let self' := (Report.withdraw_from_matching self db).1 in
    let db' := (Report.withdraw_from_matching self db).2 in
    (∀ k row, db' !! k = Some row →
       MatchReport.report row ≠ Report.pk self)
    ∧ (∀ k row, MatchReport.report row ≠ Report.pk self →
         db !! k = Some row → db' !! k = Some row)
    ∧ (∀ k row, db' !! k = Some row → db !! k = Some row)
    ∧ Report.match_found self' = false
    ∧ Report.withdraw_from_matching self' db' = (self', db').
Proof.
  intros self db. simpl. repeat split.
  - intros k row Hrow. by apply map_lookup_filter_Some in Hrow as [_ ?].
  - intros k row Hne Hrow. by apply map_lookup_filter_Some.
  - intros k row Hrow. by apply map_lookup_filter_Some in Hrow as [? _].
  - unfold Report.withdraw_from_matching. simpl. f_equal.
    rewrite map_filter_filter. apply map_filter_ext.
    intros k row Hrow. simpl. tauto.
Qed.

(** ** Exceptions of trial matching *)

(** C10, as the code has it. [get_match] catches the [CryptoError] of
    either step: when the cipher rejects the stored blob in the unpepper
    step, or rejects the unpeppered blob in the decryption step, the call
    returns [None]; when both steps succeed it returns the text. It is
    not total: an exception that is no [CryptoError] is not caught, and
    the [UnicodeDecodeError] of the final [decode], raised when both
    layers open and the plaintext bytes are not UTF-8, leaves
    [get_match]. *)
Theorem get_match_catches_CryptoError `{Platform} :
  ∀ (self : MatchReport.t) (identifier : string),
    let outcome := (MatchReport.get_match self identifier).1 in
    (_unpepper (MatchReport.encrypted self) = Raise CryptoError →
     outcome = Return None)
    ∧ (∀ blob,
         _unpepper (MatchReport.encrypted self) = Return blob →
         _decrypt_report (MatchReport.salt self) identifier blob
         = Raise CryptoError →
         outcome = Return None)
    ∧ (∀ blob text,
         _unpepper (MatchReport.encrypted self) = Return blob →
         _decrypt_report (MatchReport.salt self) identifier blob
         = Return text →
         outcome = Return (Some text))
    ∧ (∀ blob,
         _unpepper (MatchReport.encrypted self) = Return blob →
         _decrypt_report (MatchReport.salt self) identifier blob
         = Raise UnicodeDecodeError →
         outcome = Raise UnicodeDecodeError).
Proof.
  intros self identifier. simpl. split; [|split; [|split]].
  - intros Hun. unfold MatchReport.get_match. by rewrite Hun.
  - intros blob Hun Hdec.
    erewrite get_match_decrypt by done. by rewrite Hdec.
  - intros blob text Hun Hdec.
    erewrite get_match_decrypt by done. by rewrite Hdec.
  - intros blob Hun Hdec.
    erewrite get_match_decrypt by done. by rewrite Hdec.
Qed.

(** When both layers open and the plaintext is not UTF-8, the
    [UnicodeDecodeError] of [decode] leaves [get_match]. *)
Lemma get_match_undecodable `{Platform} :
  pbkdf2_sha256_length → pepper_configured → secretbox_open_seal →
  ∀ (self : MatchReport.t) (identifier : string) (payload n1 n2 : bytes),
    length n1 = 24 → length n2 = 24 →
    utf8_decode payload = None →
    MatchReport.encrypted self
    = n2 ++ crypto_secretbox
              (n1 ++ crypto_secretbox payload n1
                       (stretched_key (MatchReport.salt self) identifier))
              n2 (PEPPER settings) →
    (MatchReport.get_match self identifier).1 = Raise UnicodeDecodeError.
Proof.
  intros Hpb Hpep Hseal self identifier payload n1 n2 Hn1 Hn2 Hbad Henc.
  erewrite get_match_decrypt.
  2:{ rewrite Henc, _unpepper_sealed by done. by rewrite Hseal. }
  rewrite _decrypt_report_sealed by done.
  rewrite Hseal by (done || by apply stretched_key_length).
  unfold decode_utf8. by rewrite Hbad.
Qed.

(** * The theorems on the reference platform *)

Lemma decrypt_encrypt_roundtrip_witness :
  (∃ blob w',
     _encrypt_report (H := Ref.platform) "saltA" "supersecret" "report-A"
       Ref.world0 = (Return blob, w')
     ∧ _decrypt_report "saltA" "supersecret" blob = Return "report-A"%string)
  ∧ (∃ self' w',
       Report.encrypt_report (H := Ref.platform) (Ref.report "")
         "report-A" "supersecret" false false Ref.world0
       = (Return self', w')
       ∧ Report.decrypted_report self' "supersecret"
         = Return "report-A"%string).
Proof.
  destruct (decrypt_encrypt_roundtrip (H := Ref.platform)
              Ref_pbkdf2_length Ref_urandom_length
              Ref_open_seal Ref_utf8_decode_encode) as [Hfun Hmeth].
  split; [apply Hfun | apply Hmeth].
Defined.

Lemma pepper_roundtrip_fail_closed_witness :
  (∃ blob w',
     _pepper (H := Ref.platform) [x01; x02; x03] Ref.world0
     = (Return blob, w')
     ∧ _unpepper blob = Return [x01; x02; x03])
  ∧ (∃ e, _unpepper (H := Ref.platform) [x01; x02; x03] = Raise e
          ∧ isinstance_CryptoError e = true).
Proof.
  destruct (pepper_roundtrip_fail_closed (H := Ref.platform)
              Ref_pepper_configured Ref_urandom_length
              Ref_open_seal Ref_open_genuine) as [Hround Hclosed].
  split; [apply Hround|]. apply Hclosed.
  intros B n Hn Heq. apply (f_equal length) in Heq.
  rewrite length_app, Hn in Heq. simpl in Heq. lia.
Defined.

Lemma ciphertext_blob_layout_witness :
  ∃ nonce w',
    _encrypt_report (H := Ref.platform) "saltA" "supersecret" "report-A"
      Ref.world0
    = (Return (nonce ++ crypto_secretbox (utf8_encode "report-A") nonce
                          (stretched_key "saltA" "supersecret")), w')
    ∧ length nonce = SecretBox.NONCE_SIZE.
Proof.
  destruct (ciphertext_blob_layout (H := Ref.platform)
              Ref_pbkdf2_length Ref_urandom_length Ref_pepper_configured)
    as [Hblob _].
  apply Hblob.
Defined.

Lemma salt_generation_witness :
  (∃ self' w',
     Report.encrypt_report (H := Ref.platform) (Ref.report "original")
       "report-A" "supersecret" true false Ref.world0 = (Return self', w')
     ∧ Report.salt self' = "original"%string)
  ∧ (∃ self' w',
       MatchReport.encrypt_match_report (H := Ref.platform)
         (Ref.match_report "original") "report-B" "bob456" Ref.world0
       = (Return self', w')
       ∧ MatchReport.salt self' = "abcdefghijkl"%string).
Proof.
  destruct (salt_generation (H := Ref.platform)
              Ref_pbkdf2_length Ref_urandom_length Ref_pepper_configured
              Ref_random_string_truthy)
    as (Hreport & _ & Hmatch).
  split.
  - apply (Hreport (Ref.report "original")).
  - apply (Hmatch (Ref.match_report "original")).
Defined.

Lemma last_edited_discipline_witness :
  ∃ self' w',
    Report.encrypt_report (H := Ref.platform) (Ref.report "original")
      "report-A" "supersecret" true true Ref.world0 = (Return self', w')
    ∧ Report.last_edited self' = Some 1000%Z
    ∧ Report.autosaved self' = true.
Proof.
  apply (last_edited_discipline (H := Ref.platform)
           Ref_pbkdf2_length Ref_urandom_length (Ref.report "original")).
Defined.

Lemma withdraw_from_matching_idempotent_witness :
  let db : Database :=
    {[ 1%Z := Ref.match_report "a"; 2%Z := Ref.other_match_report ]} in
  (Report.withdraw_from_matching (Ref.report "s") db).2 !! 2%Z
  = Some Ref.other_match_report.
Proof.
  intros db.
  destruct (withdraw_from_matching_idempotent (Ref.report "s") db)
    as (_ & Hkept & _).
  apply Hkept; [discriminate | reflexivity].
Defined.

Lemma get_match_catches_CryptoError_witness :
  (MatchReport.get_match (H := Ref.platform) Sample.foreign_record
     "alice123").1 = Return None.
Proof.
  destruct (get_match_catches_CryptoError (H := Ref.platform)
              Sample.foreign_record "alice123") as [Hunpepper _].
  apply Hunpepper. reflexivity.
Defined.

(** ** Where the code departs from the specification *)

(** Against C5: a [MatchReport] with the non-empty salt ["original"] has
    another salt after [encrypt_match_report]. *)
Lemma encrypt_match_report_regenerates_salt :
  let self := Ref.match_report "original" in
  truthy (MatchReport.salt self) = true
  ∧ ∃ self' w',
      MatchReport.encrypt_match_report (H := Ref.platform) self
        "report-B" "bob456" Ref.world0 = (Return self', w')
      ∧ MatchReport.salt self' = "abcdefghijkl"%string
      ∧ MatchReport.salt self' ≠ MatchReport.salt self.
Proof.
  simpl. split; [done|]. eexists _, _. split; [|split].
  - vm_compute. reflexivity.
  - reflexivity.
  - discriminate.
Qed.

(** Against C6: [get_match] succeeds on a record whose seen flag is false,
    and the flag is false afterwards. *)
Lemma get_match_success_leaves_seen_false :
  ∃ r w',
    MatchReport.encrypt_match_report (H := Ref.platform)
      (Ref.match_report "") "report-A" "alice123" Ref.world0
    = (Return r, w')
    ∧ MatchReport.seen r = false
    ∧ (MatchReport.get_match r "alice123").1
      = Return (Some "report-A"%string)
    ∧ MatchReport.seen (MatchReport.get_match r "alice123").2 = false.
Proof.
  eexists _, _. split; [|split; [|split]].
  - vm_compute. reflexivity.
  - reflexivity.
  - vm_compute. reflexivity.
  - vm_compute. reflexivity.
Qed.

(** Against C7: an autosave that is an edit of a report with a salt sets
    [last_edited]; and an edit that is no autosave, on a report without
    salt, does not. *)
Lemma autosave_edit_sets_last_edited :
  (∃ self' w',
     Report.encrypt_report (H := Ref.platform) (Ref.report "original")
       "report-A" "supersecret" true true Ref.world0 = (Return self', w')
     ∧ Report.last_edited (Ref.report "original") = None
     ∧ Report.last_edited self' = Some (clock Ref.world0))
  ∧ (∃ self' w',
       Report.encrypt_report (H := Ref.platform) (Ref.report "")
         "report-A" "supersecret" true false Ref.world0 = (Return self', w')
       ∧ Report.last_edited self' = None).
Proof.
  split.
  - eexists _, _. split; [vm_compute; reflexivity|]. by split.
  - eexists _, _. split; [vm_compute; reflexivity|]. done.
Qed.

(** Against C10: a stored blob that opens under both keys and holds the
    byte [0xff] makes [get_match] raise [UnicodeDecodeError]. *)
Lemma get_match_raises_UnicodeDecodeError :
  (MatchReport.get_match (H := Ref.platform) Ref.undecodable_record
     "alice123").1 = Raise UnicodeDecodeError.
Proof. vm_compute. reflexivity. Qed.

(** * Further properties of the models *)

(** ** Strings and decimal formatting *)

Lemma string_app_nil (t : string) : EmptyString +:+ t = t.
Proof. reflexivity. Qed.

Lemma string_app_cons c (s t : string) :
  String c s +:+ t = String c (s +:+ t).
Proof. reflexivity. Qed.

Lemma string_app_length (s t : string) :
  String.length (s +:+ t) = String.length s + String.length t.
Proof.
  induction s as [|c s IH]; [done|].
  rewrite string_app_cons. simpl. by rewrite IH.
Qed.

Lemma string_app_inv_head (p s t : string) : p +:+ s = p +:+ t → s = t.
Proof.
  induction p as [|c p IH]; [done|].
  rewrite !string_app_cons. intros [= Heq]. auto.
Qed.

Lemma string_app_inj (s1 s2 t1 t2 : string) :
  String.length s1 = String.length s2 →
  s1 +:+ t1 = s2 +:+ t2 → s1 = s2 ∧ t1 = t2.
Proof.
  revert s2. induction s1 as [|c s1 IH]; intros [|c' s2]; simpl; try done.
  rewrite !string_app_cons.
  intros [= Hlen] [= -> Heq]. destruct (IH _ Hlen Heq) as [-> ->]. done.
Qed.

Lemma string_app_inv_tail (s1 s2 t : string) : s1 +:+ t = s2 +:+ t → s1 = s2.
Proof.
  intros Heq. apply (string_app_inj s1 s2 t t); [|done].
  apply (f_equal String.length) in Heq. rewrite !string_app_length in Heq.
  lia.
Qed.

Lemma zeros_length n : String.length (zeros n) = n.
Proof. induction n as [|n IH]; simpl; [done | by rewrite IH]. Qed.

Lemma zero_fill_length width digits :
  String.length (zero_fill width digits)
  = Nat.max width (String.length digits).
Proof.
  unfold zero_fill. rewrite string_app_length, zeros_length. lia.
Qed.

Lemma uint_of_string_zeros n (s : string) :
  NilEmpty.uint_of_string (zeros n +:+ s)
  = Nat.iter n Decimal.D0 <$> NilEmpty.uint_of_string s.
Proof.
  induction n as [|n IH].
  - simpl zeros. rewrite string_app_nil.
    by destruct (NilEmpty.uint_of_string s).
  - simpl zeros. rewrite string_app_cons. simpl. rewrite IH.
    by destruct (NilEmpty.uint_of_string s).
Qed.

Lemma of_uint_iter_zeros n d :
  Pos.of_uint (Nat.iter n Decimal.D0 d) = Pos.of_uint d.
Proof. induction n as [|n IH]; [done|]. simpl. exact IH. Qed.

Lemma to_uint_nonnil (n : N) : N.to_uint n ≠ Decimal.Nil.
Proof.
  destruct n as [|p]; [done|]. apply DecimalPos.Unsigned.to_uint_nonnil.
Qed.

Lemma uint_of_string_decimal (n : N) :
  NilEmpty.uint_of_string (decimal n) = Some (N.to_uint n).
Proof.
  unfold decimal, NilZero.string_of_uint.
  pose proof (to_uint_nonnil n) as Hnil.
  destruct (N.to_uint n) eqn:Hd; try done; rewrite <- Hd;
    apply NilEmpty.usu.
Qed.

Lemma decimal_nonempty (n : N) : decimal n ≠ EmptyString.
Proof.
  intros Hempty. pose proof (uint_of_string_decimal n) as Hparse.
  rewrite Hempty in Hparse. simpl in Hparse.
  injection Hparse as Hnil. symmetry in Hnil. by apply to_uint_nonnil in Hnil.
Qed.

(** A string of digits, when not empty, parses as a number without
    sign. *)
Lemma int_of_string_digits (s : string) d :
  s ≠ EmptyString → NilEmpty.uint_of_string s = Some d →
  NilZero.int_of_string s = Some (Decimal.Pos d).
Proof.
  destruct s as [|c s]; [done|]. intros _ Hparse.
  unfold NilZero.int_of_string.
  assert (Hc : Ascii.eqb c "-" = false).
  { simpl in Hparse. destruct (NilEmpty.uint_of_string s); [|done].
    apply uint_of_char_spec in Hparse.
    destruct Hparse as [[-> _]|[[-> _]|[[-> _]|[[-> _]|[[-> _]|[[-> _]|
      [[-> _]|[[-> _]|[[-> _]|[-> _]]]]]]]]]]; reflexivity. }
  rewrite Hc. unfold NilZero.uint_of_string. by rewrite Hparse.
Qed.

Lemma zero_fill_nonempty width (n : N) :
  zero_fill width (decimal n) ≠ EmptyString.
Proof.
  intros Hempty. apply (f_equal String.length) in Hempty.
  rewrite zero_fill_length in Hempty. simpl in Hempty.
  pose proof (decimal_nonempty n) as Hne.
  destruct (decimal n); [done | simpl in Hempty; lia].
Qed.

Lemma uint_of_string_zero_fill width (n : N) :
  NilEmpty.uint_of_string (zero_fill width (decimal n))
  = Some (Nat.iter (width - String.length (decimal n))
            Decimal.D0 (N.to_uint n)).
Proof.
  unfold zero_fill. by rewrite uint_of_string_zeros, uint_of_string_decimal.
Qed.

(** Reading back what ['%05d'] printed gives the number. *)
Lemma parse_format_05d (n : Z) : parse_int (format_05d n) = Some n.
Proof.
  unfold parse_int, format_05d. destruct (n <? 0)%Z eqn:Hsign.
  - apply Z.ltb_lt in Hsign. unfold NilZero.int_of_string. simpl.
    unfold NilZero.uint_of_string.
    pose proof (zero_fill_nonempty 4 (Z.abs_N n)) as Hne.
    destruct (zero_fill 4 (decimal (Z.abs_N n))) eqn:Hfill; [done|].
    rewrite <- Hfill, uint_of_string_zero_fill. simpl. f_equal.
    unfold Z.of_uint. rewrite of_uint_iter_zeros.
    change (Pos.of_uint (N.to_uint (Z.abs_N n)))
      with (N.of_uint (N.to_uint (Z.abs_N n))).
    rewrite DecimalN.Unsigned.of_to. lia.
  - apply Z.ltb_ge in Hsign.
    erewrite int_of_string_digits;
      [| apply zero_fill_nonempty | apply uint_of_string_zero_fill].
    simpl. f_equal. unfold Z.of_uint. rewrite of_uint_iter_zeros.
    change (Pos.of_uint (N.to_uint (Z.abs_N n)))
      with (N.of_uint (N.to_uint (Z.abs_N n))).
    rewrite DecimalN.Unsigned.of_to. lia.
Qed.

Lemma format_05d_inj (n1 n2 : Z) : format_05d n1 = format_05d n2 → n1 = n2.
Proof.
  intros Heq. pose proof (parse_format_05d n1) as Hparse.
  rewrite Heq, parse_format_05d in Hparse. congruence.
Qed.

(** ** Identifiers of sent reports *)

(** Equal identifiers have the same number field and the same flag. *)
Lemma get_id_for_schools_fields (prefix : string) (s1 s2 : SentReport.t)
  (m1 m2 : bool) :
  SentReport._get_id_for_schools prefix s1 m1
  = SentReport._get_id_for_schools prefix s2 m2 →
  format_05d (SentReport.id s1) = format_05d (SentReport.id s2) ∧ m1 = m2.
Proof.
  intros Heq. unfold SentReport._get_id_for_schools in Heq.
  apply string_app_inv_head in Heq. rewrite !string_app_cons in Heq.
  injection Heq as Heq. rewrite !string_app_nil in Heq.
  assert (Hflag : ∀ m : bool,
            String.length (String "-" (format_int (if m then 0 else 1))) = 2)
    by (by intros []).
  apply string_app_inj in Heq as [Hid Hkind].
  - split; [done|]. by destruct m1, m2.
  - apply (f_equal String.length) in Heq.
    rewrite !string_app_length, !Hflag in Heq. lia.
Qed.

(** X1. The identifier [_get_id_for_schools] builds determines the row and
    its kind: with the same prefix, two identifiers are equal only for the
    same [id] and the same [is_match]. *)
Theorem get_id_for_schools_inj :
  ∀ (prefix : string) (s1 s2 : SentReport.t) (m1 m2 : bool),
    SentReport._get_id_for_schools prefix s1 m1
    = SentReport._get_id_for_schools prefix s2 m2 →
    SentReport.id s1 = SentReport.id s2 ∧ m1 = m2.
Proof.
  intros prefix s1 s2 m1 m2 Heq.
  apply get_id_for_schools_fields in Heq as [Hnumber Hkind].
  split; [|exact Hkind]. by apply format_05d_inj.
Qed.

(** X2. A single-report identifier is never a match-report identifier:
    [SentFullReport.get_report_id] ends in [-1] and
    [SentMatchReport.get_report_id] in [-0], so the two differ for all
    rows; and within each class, different [id]s give different
    identifiers. *)
Theorem get_report_id_distinct :
  ∀ (prefix : string),
    (∀ (f : SentFullReport.t) (m : SentMatchReport.t),
       SentFullReport.get_report_id prefix f
       ≠ SentMatchReport.get_report_id prefix m)
    ∧ (∀ f1 f2 : SentFullReport.t,
         SentFullReport.get_report_id prefix f1
         = SentFullReport.get_report_id prefix f2 →
         SentReport.id (SentFullReport.base f1)
         = SentReport.id (SentFullReport.base f2))
    ∧ (∀ m1 m2 : SentMatchReport.t,
         SentMatchReport.get_report_id prefix m1
         = SentMatchReport.get_report_id prefix m2 →
         SentReport.id (SentMatchReport.base m1)
         = SentReport.id (SentMatchReport.base m2)).
Proof.
  intros prefix. split; [|split].
  - intros f m Heq. by apply get_id_for_schools_fields in Heq as [_ ?].
  - intros f1 f2 Heq. apply get_id_for_schools_fields in Heq as [Heq _].
    by apply format_05d_inj.
  - intros m1 m2 Heq. apply get_id_for_schools_fields in Heq as [Heq _].
    by apply format_05d_inj.
Qed.

(** ** The first row of a queryset *)

Lemma queryset_first_spec {A : Type} (rows : gmap Z A) :
  match queryset_first rows with
  | Some (k, row) =>
      rows !! k = Some row
      ∧ ∀ k' row', rows !! k' = Some row' → (k ≤ k')%Z
  | None => rows = ∅
  end.
Proof.
  unfold queryset_first. apply (map_fold_weak_ind (λ r m,
    match r with
    | Some (k, row) =>
        m !! k = Some row ∧ ∀ k' row', m !! k' = Some row' → (k ≤ k')%Z
    | None => m = ∅
    end)); [done|].
  intros i x m [[k row]|] Hfresh IH.
  - destruct IH as [Hk Hmin]. destruct (i <? k)%Z eqn:Hlt.
    + apply Z.ltb_lt in Hlt. split; [by rewrite lookup_insert_eq|].
      intros k' row'. destruct (decide (i = k')) as [->|Hne]; [lia|].
      rewrite lookup_insert_ne by done. intros Hk'.
      apply Hmin in Hk'. lia.
    + apply Z.ltb_ge in Hlt.
      assert (i ≠ k) by congruence.
      split; [by rewrite lookup_insert_ne|].
      intros k' row'. destruct (decide (i = k')) as [->|Hne]; [lia|].
      rewrite lookup_insert_ne by done. apply Hmin.
  - subst m. split; [by rewrite lookup_insert_eq|].
    intros k' row'. destruct (decide (i = k')) as [->|Hne]; [lia|].
    by rewrite lookup_insert_ne, lookup_empty.
Qed.

Lemma queryset_first_None {A : Type} (rows : gmap Z A) :
  queryset_first rows = None ↔ rows = ∅.
Proof.
  split.
  - intros Hnone. pose proof (queryset_first_spec rows) as Hspec.
    by rewrite Hnone in Hspec.
  - intros ->. reflexivity.
Qed.

(** ** Entering and leaving matching *)

(** X3. [entered_into_matching] is [None] exactly when no [MatchReport]
    points to the report; otherwise it is the [added] time of the
    report's [MatchReport] with the least primary key. *)
Theorem entered_into_matching_spec :
  ∀ (self : Report.t) (db : Database),
    (Report.entered_into_matching self db = None
     ↔ ∀ k row, db !! k = Some row →
         MatchReport.report row ≠ Report.pk self)
    ∧ (∀ t, Report.entered_into_matching self db = Some t →
         ∃ k row,
           db !! k = Some row
           ∧ MatchReport.report row = Report.pk self
           ∧ MatchReport.added row = t
           ∧ ∀ k' row', db !! k' = Some row' →
               MatchReport.report row' = Report.pk self → (k ≤ k')%Z).
Proof.
  intros self db. unfold Report.entered_into_matching.
  pose proof (queryset_first_spec (Report.matchreport_set self db)) as Hspec.
  destruct (queryset_first (Report.matchreport_set self db))
    as [[k row]|] eqn:Hfirst.
  - destruct Hspec as [Hk Hmin].
    apply map_lookup_filter_Some in Hk as [Hk Hrow]. simpl in Hrow.
    split.
    + split; [done|]. intros Hnone. by apply Hnone in Hk.
    + intros t [= <-]. exists k, row. repeat split; try done.
      intros k' row' Hk' Hrow'. apply (Hmin k' row').
      by apply map_lookup_filter_Some.
  - split; [|done]. split; [|done]. intros _ k row Hk Hrow.
    assert (Hin : Report.matchreport_set self db !! k = Some row)
      by by apply map_lookup_filter_Some.
    by rewrite Hspec, lookup_empty in Hin.
Qed.

(** X4. After [withdraw_from_matching] the report is no longer entered
    into matching. *)
Theorem withdrawn_not_entered_into_matching :
  ∀ (self : Report.t) (db : Database),
    Report.entered_into_matching
      (Report.withdraw_from_matching self db).1
      (Report.withdraw_from_matching self db).2 = None.
Proof.
  intros self db. unfold Report.entered_into_matching.
  assert (Hempty : Report.matchreport_set
                     (Report.withdraw_from_matching self db).1
                     (Report.withdraw_from_matching self db).2 = ∅).
  { apply map_empty. intros k. simpl.
    apply map_lookup_filter_None. right. intros row Hrow.
    apply map_lookup_filter_Some in Hrow as [_ Hother]. simpl in *. tauto. }
  rewrite Hempty. reflexivity.
Qed.

(** What a submitted-report identifier is made from. *)
Lemma get_submitted_report_id_Some (prefix : string) (self : Report.t)
  (sent : gmap Z SentFullReport.t) (report_id : string) :
  Report.get_submitted_report_id prefix self sent = Some report_id →
  ∃ k row,
    sent !! k = Some row
    ∧ SentFullReport.report row = Some (Report.pk self)
    ∧ report_id = SentFullReport.get_report_id prefix row
    ∧ ∀ k' row', sent !! k' = Some row' →
        SentFullReport.report row' = Some (Report.pk self) → (k ≤ k')%Z.
Proof.
  unfold Report.get_submitted_report_id.
  destruct (Report.submitted_to_school self) as [date|]; [|done].
  pose proof (queryset_first_spec (Report.sentfullreport_set self sent))
    as Hspec.
  destruct (queryset_first (Report.sentfullreport_set self sent))
    as [[k row]|]; [|done].
  destruct Hspec as [Hk Hmin].
  apply map_lookup_filter_Some in Hk as [Hk Hrow]. simpl in Hrow.
  intros [= <-]. exists k, row. repeat split; try done.
  intros k' row' Hk' Hrow'. apply (Hmin k' row').
  by apply map_lookup_filter_Some.
Qed.

(** X5. [get_submitted_report_id] is [None] for a report that was not
    submitted, and also for a submitted report to which no
    [SentFullReport] points; otherwise it is the identifier, ending in
    [-1], of the report's [SentFullReport] with the least primary key. *)
Theorem get_submitted_report_id_spec :
  ∀ (prefix : string) (self : Report.t) (sent : gmap Z SentFullReport.t),
    (Report.get_submitted_report_id prefix self sent = None
     ↔ Report.submitted_to_school self = None
       ∨ ∀ k row, sent !! k = Some row →
           SentFullReport.report row ≠ Some (Report.pk self))
    ∧ (∀ report_id,
         Report.get_submitted_report_id prefix self sent = Some report_id →
         ∃ k row,
           sent !! k = Some row
           ∧ SentFullReport.report row = Some (Report.pk self)
           ∧ report_id
             = prefix +:+ "-"
               +:+ format_05d (SentReport.id (SentFullReport.base row))
               +:+ "-1"
           ∧ ∀ k' row', sent !! k' = Some row' →
               SentFullReport.report row' = Some (Report.pk self) →
               (k ≤ k')%Z).
Proof.
  intros prefix self sent. unfold Report.get_submitted_report_id.
  destruct (Report.submitted_to_school self) as [date|]; [|by split; [split; [left|]|]].
  pose proof (queryset_first_spec (Report.sentfullreport_set self sent))
    as Hspec.
  destruct (queryset_first (Report.sentfullreport_set self sent))
    as [[k row]|] eqn:Hfirst.
  - destruct Hspec as [Hk Hmin].
    apply map_lookup_filter_Some in Hk as [Hk Hrow]. simpl in Hrow.
    split.
    + split; [done|]. intros [?|Hnone]; [done|]. by apply Hnone in Hk.
    + intros report_id [= <-]. exists k, row. repeat split; try done.
      intros k' row' Hk' Hrow'. apply (Hmin k' row').
      by apply map_lookup_filter_Some.
  - split; [|done]. split; [|done]. intros _. right. intros k row Hk Hrow.
    assert (Hin : Report.sentfullreport_set self sent !! k = Some row)
      by by apply map_lookup_filter_Some.
    by rewrite Hspec, lookup_empty in Hin.
Qed.

(** ** More on encryption *)

(** X7. [encrypt_report] writes [salt], [last_edited], [autosaved] and
    [encrypted] and nothing else: the primary key, the owner, [added],
    [submitted_to_school] and [match_found] are as before. It leaves the
    salt non-empty and does not move the clock. *)
Theorem encrypt_report_frame `{Platform} :
  pbkdf2_sha256_length → urandom_length → random_string_truthy →
  ∀ (self : Report.t) (text key : string) (edit autosave : bool)
    (w : World),
    ∃ self' w',
      Report.encrypt_report self text key edit autosave w
      = (Return self', w')
      ∧ Report.pk self' = Report.pk self
      ∧ Report.owner self' = Report.owner self
      ∧ Report.added self' = Report.added self
      ∧ Report.submitted_to_school self' = Report.submitted_to_school self
      ∧ Report.match_found self' = Report.match_found self
      ∧ truthy (Report.salt self') = true
      ∧ clock w' = clock w.
Proof.
  intros Hpb Hur Hrand self text key edit autosave w.
  destruct (truthy (Report.salt self)) eqn:Hsalt; [destruct edit|];
    eexists _, _.
  - split; [by apply Report_encrypt_report_edit|]. by repeat split.
  - split; [by apply Report_encrypt_report_plain|]. by repeat split.
  - split; [by apply Report_encrypt_report_first|].
    repeat split; try done. apply Hrand.
Qed.

(** X8. [encrypt_match_report] writes [salt] and [encrypted] and nothing
    else: the link to the report, the contact address, the stored
    identifier, [added] and the seen flag are as before. *)
Theorem encrypt_match_report_frame `{Platform} :
  pbkdf2_sha256_length → urandom_length → pepper_configured →
  ∀ (self : MatchReport.t) (text key : string) (w : World),
    ∃ self' w',
      MatchReport.encrypt_match_report self text key w = (Return self', w')
      ∧ MatchReport.pk self' = MatchReport.pk self
      ∧ MatchReport.report self' = MatchReport.report self
      ∧ MatchReport.contact_email self' = MatchReport.contact_email self
      ∧ MatchReport.identifier self' = MatchReport.identifier self
      ∧ MatchReport.added self' = MatchReport.added self
      ∧ MatchReport.seen self' = MatchReport.seen self
      ∧ clock w' = clock w.
Proof.
  intros Hpb Hur Hpep self text key w. eexists _, _.
  split; [by apply MatchReport_encrypt_match_report_eq|]. by repeat split.
Qed.

(** ** The wizard *)

(** X11. In the list [generate_form_list] builds, the key form is at
    index 0 (the form for a new key, or the edit form of the record to
    edit) and page [raw_idx] of the wizard is at index
    [calculate_real_page_index(raw_idx)]; the list is one longer than the
    pages. *)
Theorem form_list_real_page_index :
  ∀ {PageMap Pages Page : Type} (get_form_pages : PageMap → list Page)
    (page_map : PageMap) (pages : Pages) (record_to_edit : option Report.t),
    let form_list :=
      EncryptedFormBaseWizard.generate_form_list get_form_pages page_map
        pages record_to_edit in
    length form_list = S (length (get_form_pages page_map))
    ∧ form_list !! 0
      = Some (EncryptedFormBaseWizard.get_key_form record_to_edit)
    ∧ ∀ raw_idx,
        form_list !! EncryptedFormBaseWizard.calculate_real_page_index
                       raw_idx pages record_to_edit
        = EncryptedFormBaseWizard.PageForm
            <$> get_form_pages page_map !! raw_idx.
Proof.
  intros PageMap Pages Page get_form_pages page_map pages record_to_edit.
  simpl. split; [|split].
  - by rewrite length_fmap.
  - done.
  - intros raw_idx.
    unfold EncryptedFormBaseWizard.calculate_real_page_index.
    replace (raw_idx + 1) with (S raw_idx) by lia. simpl.
    apply list_lookup_fmap.
Qed.

Section Done.
Import EncryptedFormBaseWizard.
Context `{Platform} {Answers Done : Type}.
Variable json_dumps : Answers → string.
Variable wizard_complete : Report.t → Done + raised.
Variable DEBUG : bool.

Lemma Report_encrypt_report_no_edit (self : Report.t) text key autosave w :
  pbkdf2_sha256_length → urandom_length →
  ∃ self' w',
    Report.encrypt_report self text key false autosave w = (Return self', w')
    ∧ Report.encrypted self' = report_blob (Report.salt self') key text
                                 (if truthy (Report.salt self) then w
                                  else random_string_world w)
    ∧ Report.salt self' = (if truthy (Report.salt self) then Report.salt self
                           else random_string w)
    ∧ Report.pk self' = Report.pk self
    ∧ Report.owner self' = Report.owner self
    ∧ Report.added self' = Report.added self
    ∧ Report.last_edited self' = Report.last_edited self
    ∧ Report.autosaved self' = autosave
    ∧ Report.submitted_to_school self' = Report.submitted_to_school self
    ∧ Report.match_found self' = Report.match_found self.
Proof.
  intros Hpb Hur. destruct (truthy (Report.salt self)) eqn:Hsalt;
    eexists _, _.
  - split; [by apply Report_encrypt_report_plain|]. by repeat split.
  - split; [by apply Report_encrypt_report_first|]. by repeat split.
Qed.

(** The report [done] works on when the check of the owner passes. *)
Lemma done_permitted (self : t Answers) form_list kwargs_request st w report :
  match object_to_edit self with
  | Some obj =>
      Report.owner obj = user (default (request self) kwargs_request)
      ∧ report = obj
  | None =>
      report = new_Report (user (default (request self) kwargs_request))
                 (next_report_pk st) (clock w)
  end →
  done json_dumps wizard_complete DEBUG self form_list kwargs_request st w
  = match form_list with
    | [] => (Raised IndexError, st, w)
    | key_form :: _ =>
        match cleaned_data key_form !! "key" with
        | None => (Raised KeyError, st, w)
        | Some key =>
            let report_text := json_dumps (processed_answers self) in
            match Report.encrypt_report report report_text key
                    false false w with
            | (Raise e, w) => (Raised (Library e), st, w)
            | (Return report, w) =>
                (returned (wizard_complete report),
                 store_eval_row
                   (match object_to_edit self with
                    | Some _ => EDIT
                    | None => CREATE
                    end) report report_text (save report st), w)
            end
        end
    end.
Proof.
  unfold done. destruct (object_to_edit self) as [obj|].
  - intros [Howner ->]. by rewrite decide_True.
  - by intros ->.
Qed.
End Done.

(** X12. [done] refuses a user who is not the owner of the record to
    edit: it answers [HttpResponseForbidden] when [settings.DEBUG] is set
    and [HttpResponseNotFound] otherwise, whatever the forms hold, and
    encrypts, saves and records nothing. *)
Theorem done_refuses_other_users `{Platform} {Answers Done : Type} :
  ∀ (json_dumps : Answers → string)
    (wizard_complete : Report.t → Done + EncryptedFormBaseWizard.raised)
    (DEBUG : bool) (self : EncryptedFormBaseWizard.t Answers)
    (form_list : list EncryptedFormBaseWizard.bound_form)
    (kwargs_request : option EncryptedFormBaseWizard.HttpRequest)
    (st : EncryptedFormBaseWizard.Storage) (w : World) (obj : Report.t),
    EncryptedFormBaseWizard.object_to_edit self = Some obj →
    Report.owner obj
    ≠ EncryptedFormBaseWizard.user
        (default (EncryptedFormBaseWizard.request self) kwargs_request) →
    EncryptedFormBaseWizard.done json_dumps wizard_complete DEBUG self
      form_list kwargs_request st w
    = (EncryptedFormBaseWizard.Responded
         (if DEBUG then EncryptedFormBaseWizard.HttpResponseForbidden
          else EncryptedFormBaseWizard.HttpResponseNotFound), st, w).
Proof.
  intros json_dumps wizard_complete DEBUG self form_list kwargs_request
    st w obj Hedit Howner.
  unfold EncryptedFormBaseWizard.done. rewrite Hedit.
  by rewrite decide_False.
Qed.

(** X13. When the check of the owner passes (a new report, or the owner
    editing) and the first form holds a key, [done] completes, ending
    with what [wizard_complete] returns or raises: the report
    it hands to [wizard_complete] is the row saved under its primary key,
    it belongs to the user, it decrypts under the key to the JSON text of
    the answers, the call to [EvalRow.store_eval_row] is recorded with
    [EDIT] for an edit and [CREATE] otherwise, and no other row of the
    table changes. *)
Theorem done_saves_encrypted_report `{Platform} {Answers Done : Type} :
  pbkdf2_sha256_length → urandom_length →
  secretbox_open_seal → utf8_decode_encode →
  ∀ (json_dumps : Answers → string)
    (wizard_complete : Report.t → Done + EncryptedFormBaseWizard.raised)
    (DEBUG : bool) (self : EncryptedFormBaseWizard.t Answers)
    (key_form : EncryptedFormBaseWizard.bound_form)
    (rest : list EncryptedFormBaseWizard.bound_form)
    (kwargs_request : option EncryptedFormBaseWizard.HttpRequest)
    (st : EncryptedFormBaseWizard.Storage) (w : World) (key : string),
    let req :=
      default (EncryptedFormBaseWizard.request self) kwargs_request in
    (∀ obj, EncryptedFormBaseWizard.object_to_edit self = Some obj →
       Report.owner obj = EncryptedFormBaseWizard.user req) →
    EncryptedFormBaseWizard.cleaned_data key_form !! "key"%string
    = Some key →
    ∃ report st' w',
      EncryptedFormBaseWizard.done json_dumps wizard_complete DEBUG self
        (key_form :: rest) kwargs_request st w
      = (EncryptedFormBaseWizard.returned (wizard_complete report),
         st', w')
      ∧ EncryptedFormBaseWizard.reports st' !! Report.pk report
        = Some report
      ∧ Report.owner report = EncryptedFormBaseWizard.user req
      ∧ Report.decrypted_report report key
        = Return (json_dumps
                    (EncryptedFormBaseWizard.processed_answers self))
      ∧ EncryptedFormBaseWizard.eval_rows st'
        = EncryptedFormBaseWizard.eval_rows st
          ++ [(match EncryptedFormBaseWizard.object_to_edit self with
               | Some _ => EncryptedFormBaseWizard.EDIT
               | None => EncryptedFormBaseWizard.CREATE
               end, report,
               json_dumps (EncryptedFormBaseWizard.processed_answers self))]
      ∧ ∀ k, k ≠ Report.pk report →
          EncryptedFormBaseWizard.reports st' !! k
          = EncryptedFormBaseWizard.reports st !! k.
Proof.
  intros Hpb Hur Hseal Hutf json_dumps wizard_complete DEBUG self key_form
    rest kwargs_request st w key req Howner Hkey.
  set (start :=
         match EncryptedFormBaseWizard.object_to_edit self with
         | Some obj => obj
         | None =>
             EncryptedFormBaseWizard.new_Report
               (EncryptedFormBaseWizard.user req)
               (EncryptedFormBaseWizard.next_report_pk st) (clock w)
         end).
  assert (Hstart : Report.owner start = EncryptedFormBaseWizard.user req).
  { unfold start.
    destruct (EncryptedFormBaseWizard.object_to_edit self) as [obj|];
      [by apply Howner | done]. }
  destruct (Report_encrypt_report_no_edit start
              (json_dumps (EncryptedFormBaseWizard.processed_answers self))
              key false w Hpb Hur)
    as (report & w' & Henc & Hblob & Hsalt & Hpk & Hown & _).
  exists report. eexists _, w'. split; [|split; [|split; [|split; [|split]]]].
  - rewrite (done_permitted _ _ _ _ _ _ _ _ start).
    + rewrite Hkey. simpl. rewrite Henc. reflexivity.
    + unfold start.
      destruct (EncryptedFormBaseWizard.object_to_edit self) as [obj|];
        [split; [by apply Howner | done] | done].
  - simpl. by rewrite lookup_insert_eq.
  - congruence.
  - unfold Report.decrypted_report. rewrite Hblob.
    by apply _decrypt_report_blob_same.
  - done.
  - intros k Hk. simpl. by rewrite lookup_insert_ne.
Qed.

(** X14. [done] calls [encrypt_report] without [edit]: when the owner
    edits a record that has a salt, the saved row keeps the primary key,
    the salt and [last_edited] of the record (the edit time is not
    updated), and [autosaved] is false. *)
Theorem done_edit_keeps_last_edited `{Platform} {Answers Done : Type} :
  pbkdf2_sha256_length → urandom_length →
  ∀ (json_dumps : Answers → string)
    (wizard_complete : Report.t → Done + EncryptedFormBaseWizard.raised)
    (DEBUG : bool) (self : EncryptedFormBaseWizard.t Answers)
    (key_form : EncryptedFormBaseWizard.bound_form)
    (rest : list EncryptedFormBaseWizard.bound_form)
    (kwargs_request : option EncryptedFormBaseWizard.HttpRequest)
    (st : EncryptedFormBaseWizard.Storage) (w : World) (key : string)
    (obj : Report.t),
    EncryptedFormBaseWizard.object_to_edit self = Some obj →
    Report.owner obj
    = EncryptedFormBaseWizard.user
        (default (EncryptedFormBaseWizard.request self) kwargs_request) →
    truthy (Report.salt obj) = true →
    EncryptedFormBaseWizard.cleaned_data key_form !! "key"%string
    = Some key →
    ∃ report st' w',
      EncryptedFormBaseWizard.done json_dumps wizard_complete DEBUG self
        (key_form :: rest) kwargs_request st w
      = (EncryptedFormBaseWizard.returned (wizard_complete report),
         st', w')
      ∧ EncryptedFormBaseWizard.reports st' !! Report.pk obj = Some report
      ∧ Report.pk report = Report.pk obj
      ∧ Report.salt report = Report.salt obj
      ∧ Report.last_edited report = Report.last_edited obj
      ∧ Report.autosaved report = false
      ∧ Report.match_found report = Report.match_found obj.
Proof.
  intros Hpb Hur json_dumps wizard_complete DEBUG self key_form rest
    kwargs_request st w key obj Hedit Howner Hsalt Hkey.
  destruct (Report_encrypt_report_no_edit obj
              (json_dumps (EncryptedFormBaseWizard.processed_answers self))
              key false w Hpb Hur)
    as (report & w' & Henc & _ & Hsalt' & Hpk & _ & _ & Hlast & Hauto
        & _ & Hfound).
  rewrite Hsalt in Hsalt'.
  exists report. eexists _, w'. split.
  - rewrite (done_permitted _ _ _ _ _ _ _ _ obj) by by rewrite Hedit.
    rewrite Hkey. simpl. rewrite Henc. reflexivity.
  - simpl. rewrite <- Hpk, lookup_insert_eq, Hpk. by repeat split.
Qed.


(** ** The width of identifiers *)

Lemma string_of_uint_length d :
  String.length (NilEmpty.string_of_uint d) = Decimal.nb_digits d.
Proof. induction d; simpl; by rewrite ?IHd. Qed.

Lemma of_lu_digit c rest :
  (c < 10)%N →
  DecimalPos.Unsigned.of_lu (digit c rest)
  = (c + 10 * DecimalPos.Unsigned.of_lu rest)%N.
Proof.
  intros Hc.
  assert (Hcases : (c = 0 ∨ c = 1 ∨ c = 2 ∨ c = 3 ∨ c = 4 ∨ c = 5 ∨ c = 6
                    ∨ c = 7 ∨ c = 8 ∨ c = 9)%N) by lia.
  destruct Hcases as [->|[->|[->|[->|[->|[->|[->|[->|[->| ->]]]]]]]]];
    reflexivity.
Qed.

Lemma nb_digits_digit c rest :
  Decimal.nb_digits (digit c rest) = S (Decimal.nb_digits rest).
Proof.
  destruct c as [|p]; [done|].
  do 4 (try reflexivity; destruct p as [p|p|]); reflexivity.
Qed.

Lemma of_lu_low_digits width n :
  (n < 10 ^ N.of_nat width)%N →
  DecimalPos.Unsigned.of_lu (low_digits width n) = n.
Proof.
  revert n. induction width as [|width IH]; intros n Hn.
  - simpl in *. lia.
  - cbn [low_digits].
    rewrite of_lu_digit by (apply N.mod_lt; lia).
    rewrite IH.
    + pose proof (N.div_mod n 10). lia.
    + apply N.Div0.div_lt_upper_bound.
      rewrite Nat2N.inj_succ, N.pow_succ_r' in Hn. lia.
Qed.

Lemma nb_digits_low_digits width n :
  Decimal.nb_digits (low_digits width n) = width.
Proof.
  revert n. induction width as [|width IH]; intros n; [done|].
  cbn [low_digits]. by rewrite nb_digits_digit, IH.
Qed.

Lemma decimal_length (n : N) :
  String.length (decimal n) = Decimal.nb_digits (N.to_uint n).
Proof.
  unfold decimal, NilZero.string_of_uint.
  pose proof (to_uint_nonnil n) as Hnil.
  destruct (N.to_uint n) eqn:Hd; try done; rewrite <- Hd;
    apply string_of_uint_length.
Qed.

(** A number below [10 ^ width] has at most [width] digits. *)
Lemma decimal_length_le width (n : N) :
  0 < width → (n < 10 ^ N.of_nat width)%N →
  String.length (decimal n) ≤ width.
Proof.
  intros Hwidth Hn. rewrite decimal_length.
  set (d := Decimal.rev (low_digits width n)).
  assert (Hdigits : Decimal.nb_digits d = width).
  { unfold d. by rewrite DecimalFacts.nb_digits_rev, nb_digits_low_digits. }
  assert (Hd : N.of_uint d = n).
  { unfold d, N.of_uint.
    by rewrite DecimalPos.Unsigned.of_lu_rev, of_lu_low_digits. }
  rewrite <- Hd, DecimalN.Unsigned.to_of.
  etrans; [apply DecimalFacts.nb_digits_unorm|by rewrite Hdigits].
  apply DecimalFacts.nb_digits_n0. lia.
Qed.

(** X16. The identifier is [prefix], a dash, at least five characters for
    the number, a dash and one digit; for an [id] from 0 to 99999 the
    number takes exactly five characters, so that these identifiers all
    have the same length. *)
Theorem get_id_for_schools_width :
  ∀ (prefix : string) (self : SentReport.t) (is_match : bool),
    String.length prefix + 8
    ≤ String.length (SentReport._get_id_for_schools prefix self is_match)
    ∧ ((0 ≤ SentReport.id self < 100000)%Z →
       String.length (SentReport._get_id_for_schools prefix self is_match)
       = String.length prefix + 8).
Proof.
  intros prefix self is_match. unfold SentReport._get_id_for_schools.
  rewrite !string_app_length.
  assert (Hflag : String.length (format_int (if is_match then 0 else 1)) = 1)
    by by destruct is_match.
  rewrite Hflag. simpl String.length.
  unfold format_05d. destruct (SentReport.id self <? 0)%Z eqn:Hsign.
  - apply Z.ltb_lt in Hsign. simpl String.length.
    rewrite zero_fill_length. split; lia.
  - apply Z.ltb_ge in Hsign. rewrite zero_fill_length. split; [lia|].
    intros [_ Hid].
    assert (String.length (decimal (Z.abs_N (SentReport.id self))) ≤ 5);
      [|lia].
    apply decimal_length_le; [lia|]. simpl. lia.
Qed.

(** ** The further properties on the reference platform *)

Lemma get_id_for_schools_inj_witness :
  SentReport.id (Sample.sent_report 7) = SentReport.id (Sample.sent_report 7)
  ∧ true = true.
Proof.
  apply (get_id_for_schools_inj "000" (Sample.sent_report 7)
           (Sample.sent_report 7) true true).
  reflexivity.
Defined.

Lemma encrypt_report_frame_witness :
  ∃ self' w',
    Report.encrypt_report (H := Ref.platform) (Ref.report "")
      "report-A" "supersecret" false true Ref.world0 = (Return self', w')
    ∧ Report.pk self' = 7%Z
    ∧ Report.owner self' = 3%Z.
Proof.
  destruct (encrypt_report_frame (H := Ref.platform)
              Ref_pbkdf2_length Ref_urandom_length Ref_random_string_truthy
              (Ref.report "") "report-A" "supersecret" false true
              Ref.world0)
    as (self' & w' & Hencrypt & Hpk & Howner & _).
  by exists self', w'.
Defined.

Lemma encrypt_match_report_frame_witness :
  ∃ self' w',
    MatchReport.encrypt_match_report (H := Ref.platform)
      (Ref.match_report "") "report-A" "alice123" Ref.world0
    = (Return self', w')
    ∧ MatchReport.report self' = 7%Z
    ∧ MatchReport.seen self' = false.
Proof.
  destruct (encrypt_match_report_frame (H := Ref.platform)
              Ref_pbkdf2_length Ref_urandom_length Ref_pepper_configured
              (Ref.match_report "") "report-A" "alice123" Ref.world0)
    as (self' & w' & Hencrypt & _ & Hreport & _ & _ & _ & Hseen & _).
  by exists self', w'.
Defined.

Lemma done_refuses_other_users_witness :
  EncryptedFormBaseWizard.done (H := Ref.platform) id (λ r, inl (Report.pk r)) false
    (Sample.editing 4) [Sample.key_form] None Sample.storage Ref.world0
  = (EncryptedFormBaseWizard.Responded
       EncryptedFormBaseWizard.HttpResponseNotFound,
     Sample.storage, Ref.world0).
Proof.
  apply (done_refuses_other_users (H := Ref.platform) id (λ r, inl (Report.pk r)) false
           (Sample.editing 4) [Sample.key_form] None Sample.storage
           Ref.world0 (Ref.report "original")).
  - reflexivity.
  - simpl. lia.
Defined.

Lemma done_saves_encrypted_report_witness :
  ∃ report st' w',
    EncryptedFormBaseWizard.done (H := Ref.platform) id (λ r, inl (Report.pk r)) false
      Sample.creating [Sample.key_form] None Sample.storage Ref.world0
    = (EncryptedFormBaseWizard.Responded
         (EncryptedFormBaseWizard.Complete (Report.pk report)), st', w')
    ∧ EncryptedFormBaseWizard.reports st' !! Report.pk report = Some report
    ∧ Report.owner report = 3%Z
    ∧ Report.decrypted_report report "supersecret" = Return "{}"%string.
Proof.
  destruct (done_saves_encrypted_report (H := Ref.platform)
              Ref_pbkdf2_length Ref_urandom_length Ref_open_seal
              Ref_utf8_decode_encode id (λ r, inl (Report.pk r)) false Sample.creating
              Sample.key_form [] None Sample.storage Ref.world0
              "supersecret")
    as (report & st' & w' & Hdone & Hrow & Howner & Hdecrypt & _).
  - by intros obj.
  - reflexivity.
  - by exists report, st', w'.
Defined.

Lemma done_edit_keeps_last_edited_witness :
  ∃ report st' w',
    EncryptedFormBaseWizard.done (H := Ref.platform) id (λ r, inl (Report.pk r)) false
      (Sample.editing 3) [Sample.key_form] None Sample.storage Ref.world0
    = (EncryptedFormBaseWizard.Responded
         (EncryptedFormBaseWizard.Complete (Report.pk report)), st', w')
    ∧ EncryptedFormBaseWizard.reports st' !! 7%Z = Some report
    ∧ Report.last_edited report = None.
Proof.
  destruct (done_edit_keeps_last_edited (H := Ref.platform)
              Ref_pbkdf2_length Ref_urandom_length id (λ r, inl (Report.pk r)) false
              (Sample.editing 3) Sample.key_form [] None Sample.storage
              Ref.world0 "supersecret" (Ref.report "original"))
    as (report & st' & w' & Hdone & Hrow & _ & _ & Hlast & _);
    [reflexivity..|].
  by exists report, st', w'.
Defined.


(** ** Identifiers of submitted reports *)

(** X17. In a table whose rows carry their primary key as [id], two
    different reports never have the same submitted-report identifier. *)
Theorem get_submitted_report_id_distinct :
  ∀ (prefix : string) (r1 r2 : Report.t) (sent : gmap Z SentFullReport.t)
    (id1 id2 : string),
    (∀ k row, sent !! k = Some row →
       SentReport.id (SentFullReport.base row) = k) →
    Report.pk r1 ≠ Report.pk r2 →
    Report.get_submitted_report_id prefix r1 sent = Some id1 →
    Report.get_submitted_report_id prefix r2 sent = Some id2 →
    id1 ≠ id2.
Proof.
  intros prefix r1 r2 sent id1 id2 Hkeys Hne H1 H2 Heq.
  apply get_submitted_report_id_Some in H1
    as (k1 & row1 & Hk1 & Hrow1 & -> & _).
  apply get_submitted_report_id_Some in H2
    as (k2 & row2 & Hk2 & Hrow2 & -> & _).
  assert (Hid : SentReport.id (SentFullReport.base row1)
                = SentReport.id (SentFullReport.base row2)).
  { apply get_id_for_schools_fields in Heq as [Heq _].
    by apply format_05d_inj. }
  rewrite (Hkeys _ _ Hk1), (Hkeys _ _ Hk2) in Hid. subst k2.
  congruence.
Qed.

Lemma get_submitted_report_id_distinct_witness :
  ("000-00001-1" ≠ "000-00002-1")%string.
Proof.
  apply (get_submitted_report_id_distinct "000" (Sample.submitted 7)
           (Sample.submitted 8) Sample.sent_table).
  - intros k row Hrow. unfold Sample.sent_table in Hrow.
    apply lookup_insert_Some in Hrow as [[<- <-]|[_ Hrow]]; [done|].
    by apply lookup_singleton_Some in Hrow as [<- <-].
  - simpl. lia.
  - vm_compute. reflexivity.
  - vm_compute. reflexivity.
Defined.
